(** * dlint plugin host: a shallow embedding of the JavaScript runtime glue

    Sources embedded here:
    - [examples/dlint/runtime/plugin_host.js] (module [PluginHost]) and the
      [plugin_server.js] text that follows it in the same file
      (module [PluginServer]);
    - the two earlier texts of [plugin_host.js] (modules [PluginHostPrint]
      and [PluginHostSpan]) and the earliest [plugin_server.js]
      (module [PluginServerQuiet]);
    - [examples/dlint/plugins/plugin1.js] (module [Plugin1]).

    JavaScript values are first-order data; functions stored in objects are
    references.  Effects (the shared [context] object, what plugin closures
    keep for themselves, standard output, the diagnostics handed to
    [op_add_diagnostic]) live in an explicit heap that is threaded through a
    state-and-exception monad.

    A template literal converts each interpolated value to text.  For a
    primitive value that runs no code; for an object, array or function it
    runs the value's own [toString]/[valueOf], which is plugin code when the
    value comes from a plugin: it may throw and may do anything plugin code
    can do.  [JSON.stringify] likewise runs a value's [toJSON].  What such
    code does is a parameter of the embedding (class [Realm]).

    Standing assumptions: globals and built-in prototypes are the engine's
    own; properties are data properties; an instance is not reassigned
    after its factory returned. *)

From stdpp Require Import base option list gmap strings.
From Stdlib Require Import ZArith Lia.

Open Scope Z_scope.

(** ** Values *)

(** Numbers are integers: the only numbers the hosts handle are byte
    offsets and the array length. *)
#[warnings="-register-all"]
Inductive JsVal : Type :=
  | VUndefined
  | VNull
  | VBool (b : bool)
  | VNum (n : Z)
  | VStr (s : string)
  | VArr (items : list JsVal)
  | VObj (fields : gmap string JsVal)
  | VFun (ref : positive).

(** [if (v)]: ToBoolean. *)
Definition truthy (v : JsVal) : bool :=
  match v with
  | VUndefined | VNull => false
  | VBool b => b
  | VNum n => negb (n =? 0)
  | VStr s => negb (String.eqb s "")
  | VArr _ | VObj _ | VFun _ => true
  end.

Definition nullish (v : JsVal) : bool :=
  match v with
  | VUndefined | VNull => true
  | _ => false
  end.

Definition callable (v : JsVal) : bool :=
  match v with
  | VFun _ => true
  | _ => false
  end.

(** Values whose conversion to text runs no code of their own. *)
Definition primitive (v : JsVal) : bool :=
  match v with
  | VArr _ | VObj _ | VFun _ => false
  | _ => true
  end.

Definition is_string (v : JsVal) : bool :=
  match v with
  | VStr _ => true
  | _ => false
  end.

(** Values that hold no function anywhere, so that [JSON.stringify] finds
    no [toJSON] to call. *)
Fixpoint code_free (v : JsVal) : bool :=
  match v with
  | VFun _ => false
  | VArr items => forallb code_free items
  | VObj fields => map_fold (λ _ v' rest, code_free v' && rest) true fields
  | _ => true
  end.

(** The value of [v.p] when [v] is neither [undefined] nor [null]. *)
Definition prop_of (v : JsVal) (p : string) : JsVal :=
  match v with
  | VObj fields => default VUndefined (fields !! p)
  | _ => VUndefined
  end.

(** ** Completions and the monad *)

Inductive Error : Type :=
  | TypeError (msg : string)
  | Exception (v : JsVal).

Inductive Completion (A : Type) : Type :=
  | Normal (a : A)
  | Throw (e : Error).
Arguments Normal {A} a.
Arguments Throw {A} e.

(** A computation over a store [S]: it returns or throws, and in both cases
    the writes made so far stay. *)
Definition Js (S A : Type) : Type := S → Completion A * S.

#[global] Instance js_ret {S} : MRet (Js S) := λ A a s, (Normal a, s).
#[global] Instance js_bind {S} : MBind (Js S) := λ A B f m s,
  match m s with
  | (Normal a, s') => f a s'
  | (Throw e, s') => (Throw e, s')
  end.
#[global] Instance js_throw {S} : MThrow Error (Js S) := λ A e s, (Throw e, s).

Definition gets {S A} (f : S → A) : Js S A := λ s, (Normal (f s), s).
Definition modify {S} (f : S → S) : Js S unit := λ s, (Normal tt, f s).

(** The store a computation leaves, and how it completes. *)
Definition run {S A} (m : Js S A) (s : S) : S := snd (m s).
Definition completion {S A} (m : Js S A) (s : S) : Completion A := fst (m s).

(** [for (const x of xs) { body }] *)
Fixpoint for_of {S A} (xs : list A) (body : A → Js S unit) : Js S unit :=
  match xs with
  | [] => mret tt
  | x :: rest => body x ;; for_of rest body
  end.

(** [v.p] for the properties the hosts read ([filename], [ast], [span],
    [start], [end]): reading a property of [undefined] or [null] throws; a
    value without the property gives [undefined]. *)
Definition get_prop {S} (v : JsVal) (p : string) : Js S JsVal :=
  match v with
  | VUndefined | VNull =>
      mthrow (TypeError ("Cannot read properties of undefined or null: " +:+ p))
  | VObj fields => mret (default VUndefined (fields !! p))
  | _ => mret VUndefined
  end.

(** ** The heap: what plugin code and the host can both reach *)

(** An output line: literal text, primitive values (whose rendering as
    text runs no code and is left symbolic: [Hole]), the arguments of a
    [console.log], and trees rendered by [JSON.stringify] without running
    code ([Json]).  Text that code produced is a [Lit]. *)
Inductive Piece : Type :=
  | Lit (s : string)
  | Hole (v : JsVal)
  | Json (v : JsVal) (indent : option Z).

(** [closures]: what the closures of plugin code keep for themselves, out
    of the host's reach. *)
Record Heap : Type := mkHeap {
  context : gmap string JsVal;
  closures : gmap positive JsVal;
  console : list (list Piece);
  diagnostics : list (list JsVal);
}.

Definition with_console (f : list (list Piece) → list (list Piece)) (h : Heap) : Heap :=
  {| context := context h; closures := closures h;
     console := f (console h); diagnostics := diagnostics h |}.
Definition with_diagnostics (f : list (list JsVal) → list (list JsVal)) (h : Heap) : Heap :=
  {| context := context h; closures := closures h;
     console := console h; diagnostics := f (diagnostics h) |}.

(** ** Code that values carry *)

(** [object_to_string v]: the conversion to text of a value that is not
    primitive, as a template literal does it: it runs [v]'s [toString] or
    [valueOf], built in or supplied with the value, and throws a
    [TypeError] when neither gives a primitive.  [json_stringify v indent]:
    [JSON.stringify(v, undefined, indent)] followed by the conversion of its
    result to text, for a value that holds functions.  Both are code outside
    the hosts. *)
Class Realm : Type := mkRealm {
  object_to_string : JsVal → Js Heap string;
  json_stringify : JsVal → option Z → Js Heap string;
}.

(** [`${v}`]: one interpolation. *)
Definition interpolate {realm : Realm} (v : JsVal) : Js Heap Piece :=
  match v with
  | VArr _ | VObj _ | VFun _ => s ← object_to_string v; mret (Lit s)
  | _ => mret (Hole v)
  end.

(** [`${JSON.stringify(v, undefined, indent)}`] *)
Definition stringify {realm : Realm} (v : JsVal) (indent : option Z) : Js Heap Piece :=
  if code_free v then mret (Json v indent)
  else s ← json_stringify v indent; mret (Lit s).

(** ** Plugins *)

Definition Callback : Type := list JsVal → Js Heap JsVal.

Record Descriptor : Type := mkDescriptor {
  name : JsVal;
  onEnd : option Callback;
  visitor : list (string * Callback);
}.

(** What a factory may return: [undefined]/[null], or a value with
    properties.  A value without [name] has [name = VUndefined]. *)
Inductive PluginInstance : Type :=
  | Nullish
  | Instance (d : Descriptor).

(** [pluginMod.default({ context })]: the closure sees the shared context
    through the heap. *)
Definition Factory : Type := Js Heap PluginInstance.

Record Module : Type := mkModule {
  default_export : option Factory;
}.

(** ** Module state of a host *)

Record Host : Type := mkHost {
  loadedPlugins : list PluginInstance;
  heap : Heap;
}.

Definition on_heap {A} (m : Js Heap A) : Js Host A := λ st,
  let (c, h) := m (heap st) in
  (c, {| loadedPlugins := loadedPlugins st; heap := h |}).

(** [console.log(...)] and [Deno.core.print(...)] both write one line; the
    line's text is made before, by [interpolate] and [stringify]. *)
Definition print (line : list Piece) : Js Host unit :=
  on_heap (modify (with_console (λ out, out ++ [line]))).

(** Modelled from the spec: [Deno.core.ops.op_add_diagnostic], whose Rust
    side is not part of the sources.  It is the diagnostic sink's [add]:
    it returns nothing and appends the call's arguments, in call order. *)
Definition addDiagnostic (args : list JsVal) : Js Host unit :=
  on_heap (modify (with_diagnostics (λ ds, ds ++ [args]))).

(** [loadedPlugins.push(pluginInstance)] *)
Definition push (p : PluginInstance) : Js Host unit :=
  modify (λ st, {| loadedPlugins := loadedPlugins st ++ [p]; heap := heap st |}).

(** [plugin.name] *)
Definition plugin_name {S} (p : PluginInstance) : Js S JsVal :=
  match p with
  | Nullish => mthrow (TypeError "Cannot read properties of undefined or null: name")
  | Instance d => mret (name d)
  end.

(** [pluginMod.default({ context })] *)
Definition call_default (m : Module) : Js Host PluginInstance :=
  match default_export m with
  | Some factory => on_heap factory
  | None => mthrow (TypeError "pluginMod.default is not a function")
  end.

Definition empty_heap : Heap :=
  {| context := ∅; closures := ∅; console := []; diagnostics := [] |}.

(** [const loadedPlugins = []; const context = {};] after the greeting. *)
Definition module_init (greeting : string) : Host :=
  {| loadedPlugins := [];
     heap := with_console (λ out, out ++ [[Lit greeting]]) empty_heap |}.

Definition message : JsVal := VStr "Example Plugin diagnostics".

(** ** The hosts *)

Section Init.
(** [await import(pluginPath)]: the module loader is outside the sources.
    A rejected import is a [Throw]; loading may run the module's top-level
    code. *)
Variable import : string → Js Heap Module.

(** [hostInit] and [serverInit] have the same body in every text.  An
    [async] function run to settlement: [Throw] is the rejected promise. *)
Definition init (plugins : list string) : Js Host unit :=
  for_of plugins (λ pluginPath,
    pluginMod ← on_heap (import pluginPath);
    pluginInstance ← call_default pluginMod;
    push pluginInstance) ;;
  n ← gets (λ st, length (loadedPlugins st));
  print [Lit "Loaded plugins: "; Hole (VNum (Z.of_nat n))].
End Init.

(** Loading one plugin: the two statements before [push]. *)
Definition load (import : string → Js Heap Module) (pluginPath : string) : Js Host PluginInstance :=
  pluginMod ← on_heap (import pluginPath);
  call_default pluginMod.

(** [examples/dlint/runtime/plugin_host.js], the text the file starts with. *)
Module PluginHost.
Definition start : Host := module_init "Hello from plugin_host.js".

Definition hostInit := init.

(** The body of [for (const plugin of loadedPlugins)]. *)
Definition each_plugin {realm : Realm} (ast filename : JsVal) (plugin : PluginInstance)
    : Js Host unit :=
  n ← plugin_name plugin;
  shown ← on_heap (interpolate n);
  file ← on_heap (interpolate filename);
  print [Lit "Running plugin: "; shown; Lit " for "; file] ;;
  span ← get_prop ast "span";
  if truthy span then
    n ← plugin_name plugin;
    addDiagnostic [n; message; VNull; VNum 100; VNum 200]
  else mret tt.

(** [getCtx2] is the value [op_get_ctx2()] returns. *)
Definition hostRequest {realm : Realm} (getCtx2 : JsVal) : Js Host unit :=
  let ast := getCtx2 in
  let filename := VStr "..." in
  file ← on_heap (interpolate filename);
  print [Lit "Got AST for "; file] ;;
  plugins ← gets loadedPlugins;
  for_of plugins (each_plugin ast filename).
End PluginHost.

(** The [plugin_server.js] text that follows in the same file. *)
Module PluginServer.
Definition start : Host := module_init "Hello from plugin_server.js".

Definition serverInit := init.

(** [getCtx] is the value [op_get_ctx()] returns. *)
Definition serverRequest {realm : Realm} (getCtx : JsVal) : Js Host unit :=
  filename ← get_prop getCtx "filename";
  ast ← get_prop getCtx "ast";
  file ← on_heap (interpolate filename);
  tree ← on_heap (stringify ast None);
  print [Lit "Got AST for "; file; Lit ": "; tree] ;;
  plugins ← gets loadedPlugins;
  for_of plugins (λ plugin,
    n ← plugin_name plugin;
    shown ← on_heap (interpolate n);
    file ← on_heap (interpolate filename);
    print [Lit "Running plugin: "; shown; Lit " for "; file] ;;
    n ← plugin_name plugin;
    addDiagnostic [n; message; VNum 100; VNum 200]).
End PluginServer.

(** The earlier [plugin_host.js] that prints the tree. *)
Module PluginHostPrint.
Definition start : Host := module_init "Hello from plugin_host.js".

Definition hostInit := init.

Definition hostRequest {realm : Realm} (getCtx : JsVal) : Js Host unit :=
  filename ← get_prop getCtx "filename";
  ast ← get_prop getCtx "ast";
  file ← on_heap (interpolate filename);
  tree ← on_heap (stringify ast (Some 4));
  print [Lit "Got AST for "; file; Lit ": "; tree] ;;
  plugins ← gets loadedPlugins;
  for_of plugins (λ plugin,
    n ← plugin_name plugin;
    shown ← on_heap (interpolate n);
    file ← on_heap (interpolate filename);
    print [Lit "Running plugin: "; shown; Lit " for "; file] ;;
    span ← get_prop ast "span";
    if truthy span then
      n ← plugin_name plugin;
      addDiagnostic [n; message; VNull; VNum 100; VNum 200]
    else mret tt).
End PluginHostPrint.

(** The earlier [plugin_host.js] that reports the root's own span. *)
Module PluginHostSpan.
Definition start : Host := module_init "Hello from plugin_host.js".

Definition hostInit := init.

Definition each_plugin {realm : Realm} (ast filename : JsVal) (plugin : PluginInstance)
    : Js Host unit :=
  n ← plugin_name plugin;
  shown ← on_heap (interpolate n);
  file ← on_heap (interpolate filename);
  print [Lit "Running plugin: "; shown; Lit " for "; file] ;;
  span ← get_prop ast "span";
  if truthy span then
    n ← plugin_name plugin;
    span ← get_prop ast "span";
    span_start ← get_prop span "start";
    span ← get_prop ast "span";
    span_end ← get_prop span "end";
    addDiagnostic [n; message; VNull; span_start; span_end]
  else mret tt.

Definition hostRequest {realm : Realm} (getCtx : JsVal) : Js Host unit :=
  filename ← get_prop getCtx "filename";
  ast ← get_prop getCtx "ast";
  plugins ← gets loadedPlugins;
  for_of plugins (each_plugin ast filename).
End PluginHostSpan.

(** The earliest [plugin_server.js]: the request only names the plugins. *)
Module PluginServerQuiet.
Definition start : Host := module_init "Hello from plugin_server.js".

Definition serverInit := init.

(** [request] is the argument object, destructured as [{ filename }]. *)
Definition serverRequest {realm : Realm} (request : JsVal) : Js Host unit :=
  filename ← get_prop request "filename";
  plugins ← gets loadedPlugins;
  for_of plugins (λ plugin,
    n ← plugin_name plugin;
    shown ← on_heap (interpolate n);
    file ← on_heap (interpolate filename);
    print [Lit "Running plugin: "; shown; Lit " for "; file]).
End PluginServerQuiet.

(** [examples/dlint/plugins/plugin1.js] *)
Module Plugin1.
Section Calls.
(** What calling the function behind a reference does. *)
Variable call : positive → Callback.

Definition one_one : JsVal :=
  VObj {[ "line" := VNum 1; "column" := VNum 1 ]}.

Definition onEnd : Callback := λ _,
  addDiagnostics ← gets (λ h, default VUndefined (context h !! "addDiagnostics"));
  filename ← gets (λ h, default VUndefined (context h !! "filename"));
  match addDiagnostics with
  | VFun ref =>
      call ref [VObj {[ "filename" := filename;
                        "code" := VStr "example_plugin";
                        "message" := VStr "Example Plugin diagnostics";
                        "location" := VObj {[ "start" := one_one; "end" := one_one ]} ]}]
  | _ => mthrow (TypeError "context.addDiagnostics is not a function")
  end.

Definition Program : Callback := λ args,
  let node := default VUndefined (head args) in
  modify (with_console (λ out, out ++ [[Lit "Program"; Hole node]])) ;;
  mret VUndefined.

Definition plugin : Factory :=
  mret (Instance (mkDescriptor (VStr "example_plugin1")
                               (Some onEnd)
                               [("Program", Program)])).

Definition module : Module := {| default_export := Some plugin |}.
End Calls.
End Plugin1.

(** ** Sessions: any sequence of calls into the module *)

Inductive Call : Type :=
  | HostInit (plugins : list string)
  | HostRequest (getCtx2 : JsVal).

Definition call {realm : Realm} (import : string → Js Heap Module) (c : Call)
    : Js Host unit :=
  match c with
  | HostInit plugins => PluginHost.hostInit import plugins
  | HostRequest getCtx2 => PluginHost.hostRequest getCtx2
  end.

(** The caller goes on after a call that threw. *)
Fixpoint session {realm : Realm} (import : string → Js Heap Module) (calls : list Call)
    (st : Host) : Host :=
  match calls with
  | [] => st
  | c :: rest => session import rest (run (call import c) st)
  end.

(** ** Sample inputs *)

Definition span_of (lo hi : Z) : JsVal :=
  VObj {[ "start" := VNum lo; "end" := VNum hi ]}.

(** [Program{span:[0,50], body:[CallExpr{span:[10,20]}]}] *)
Definition sample_ast : JsVal :=
  VObj {[ "type" := VStr "Program";
          "span" := span_of 0 50;
          "body" := VArr [VObj {[ "type" := VStr "CallExpr"; "span" := span_of 10 20 ]}] ]}.

(** The same tree with the root's [span] removed. *)
Definition spanless_ast : JsVal :=
  VObj {[ "type" := VStr "Program"; "body" := VArr [] ]}.

Definition sample_ctx : JsVal :=
  VObj {[ "filename" := VStr "a.ts"; "ast" := sample_ast ]}.

Definition no_call : positive → Callback := λ _ _, mret VUndefined.

Definition plugin1_descriptor : Descriptor :=
  mkDescriptor (VStr "example_plugin1") (Some (Plugin1.onEnd no_call))
    [("Program", Plugin1.Program)].

Definition second_descriptor : Descriptor :=
  mkDescriptor (VStr "example_plugin2") None [("Program", Plugin1.Program)].

(** A plugin without visitors whose [onEnd] prints one line. *)
Definition end_probe_onEnd : Callback := λ _,
  modify (with_console (λ out, out ++ [[Lit "onEnd"]])) ;; mret VUndefined.

Definition end_probe : Descriptor :=
  mkDescriptor (VStr "end_probe") (Some end_probe_onEnd) [].

(** A plugin whose callbacks all throw. *)
Definition boom : Callback := λ _, mthrow (Exception (VStr "boom")).

Definition thrower : Descriptor :=
  mkDescriptor (VStr "thrower") (Some boom) [("Program", boom)].

Definition bad_factory : Factory := mthrow (Exception (VStr "boom")).

(** A descriptor without a [name]. *)
Definition nameless : Descriptor := mkDescriptor VUndefined None [].

Definition sample_import (path : string) : Js Heap Module :=
  if String.eqb path "plugin1.js" then mret (Plugin1.module no_call)
  else mthrow (TypeError ("Module not found: " +:+ path)).

Definition probe_import (path : string) : Js Heap Module :=
  if String.eqb path "end_probe.js" then mret (mkModule (Some (mret (Instance end_probe))))
  else if String.eqb path "thrower.js" then mret (mkModule (Some (mret (Instance thrower))))
  else sample_import path.

Definition failing_import (path : string) : Js Heap Module :=
  if String.eqb path "bad.js" then mret (mkModule (Some bad_factory))
  else if String.eqb path "noname.js" then mret (mkModule (Some (mret (Instance nameless))))
  else sample_import path.

(** A loader that also knows a module whose factory returns nothing:
    [export default function () {}]. *)
Definition empty_import (path : string) : Js Heap Module :=
  if String.eqb path "empty.js" then mret (mkModule (Some (mret Nullish)))
  else sample_import path.

Definition loaded1 : Host := run (PluginHost.hostInit sample_import ["plugin1.js"]) PluginHost.start.

Definition loaded_empty : Host :=
  run (PluginHost.hostInit empty_import ["plugin1.js"; "empty.js"]) PluginHost.start.

Definition loaded_probe : Host :=
  run (PluginHost.hostInit probe_import ["end_probe.js"]) PluginHost.start.

Definition loaded_thrower : Host :=
  run (PluginHost.hostInit probe_import ["thrower.js"; "plugin1.js"]) PluginHost.start.

(** A sample realm, in which converting a value that is not primitive
    always throws, as it does for [{toString: null}].  The closed examples
    run in it; their plugins have string names, so that nothing is
    converted and every realm gives the same results. *)
#[global] Instance bare_realm : Realm :=
  {| object_to_string := λ _, mthrow (TypeError "Cannot convert object to primitive value");
     json_stringify := λ _ _, mthrow (TypeError "Cannot convert object to primitive value") |}.


Definition loud : Descriptor :=
  mkDescriptor (VObj {[ "toString" := VFun 1 ]}) None [].





(** ** Vocabulary of the statements *)

(** Instances whose name, if they have one to read, is a string: a request
    then converts no object to text. *)
Definition string_named (d : Descriptor) : Prop := is_string (name d) = true.

Definition plain (p : PluginInstance) : Prop :=
  match p with
  | Nullish => True
  | Instance d => string_named d
  end.

(** What the factories of the modules at [paths] return, one after the
    other from heap [h] on, up to the first import or factory that throws. *)
Fixpoint loaded_by (import : string → Js Heap Module) (paths : list string) (h : Heap)
    : list PluginInstance :=
  match paths with
  | [] => []
  | path :: rest =>
      match import path h with
      | (Normal m, h1) =>
          match default_export m with
          | Some factory =>
              match factory h1 with
              | (Normal p, h2) => p :: loaded_by import rest h2
              | (Throw _, _) => []
              end
          | None => []
          end
      | (Throw _, _) => []
      end
  end.

(** A computation that sees of the store nothing but the heap. *)
Definition heap_blind {A} (c : Js Host A) : Prop :=
  ∀ st1 st2, heap st1 = heap st2 →
    completion c st1 = completion c st2 ∧ heap (run c st1) = heap (run c st2).

(** Three ways a later store can relate to an earlier one. *)
Definition same_plugins : relation Host := λ s s', loadedPlugins s' = loadedPlugins s.
Definition same_context : relation Host := λ s s', context (heap s') = context (heap s).
Definition grown : relation Host := λ s s', loadedPlugins s `prefix_of` loadedPlugins s'.

(** The store after [out] was printed and [ds] was handed to the sink. *)
Definition extend (out : list (list Piece)) (ds : list (list JsVal)) (st : Host) : Host :=
  {| loadedPlugins := loadedPlugins st;
     heap := {| context := context (heap st);
                closures := closures (heap st);
                console := console (heap st) ++ out;
                diagnostics := diagnostics (heap st) ++ ds |} |}.

(** [m] completes as [c], printing [out] and reporting [ds], whatever the
    store it starts from. *)
Definition effect_of {A} (m : Js Host A) (c : Completion A)
    (out : list (list Piece)) (ds : list (list JsVal)) : Prop :=
  ∀ st, m st = (c, extend out ds st).

Definition running_line (filename n : JsVal) : list Piece :=
  [Lit "Running plugin: "; Hole n; Lit " for "; Hole filename].

Definition fixed_diagnostic (n : JsVal) : list JsVal :=
  [n; message; VNull; VNum 100; VNum 200].

(** The diagnostic of the host that reports the root's own span. *)
Definition span_diagnostic (span n : JsVal) : list JsVal :=
  [n; message; VNull; prop_of span "start"; prop_of span "end"].

Definition name_of (p : PluginInstance) : option JsVal :=
  match p with
  | Nullish => None
  | Instance d => Some (name d)
  end.

Definition with_visitor (f : Descriptor → list (string * Callback)) (d : Descriptor) : Descriptor :=
  mkDescriptor (name d) (onEnd d) (f d).

Definition with_onEnd (f : Descriptor → option Callback) (d : Descriptor) : Descriptor :=
  mkDescriptor (name d) (f d) (visitor d).

Definition on_instance (g : Descriptor → Descriptor) (p : PluginInstance) : PluginInstance :=
  match p with
  | Nullish => Nullish
  | Instance d => Instance (g d)
  end.

Definition map_plugins (g : Descriptor → Descriptor) (st : Host) : Host :=
  mkHost (on_instance g <$> loadedPlugins st) (heap st).


(** What the claims C1 and C2 ask of a request, seen through a callback that
    prints: the line the callback prints must be among those the request
    adds, once. *)
Definition added_lines (request : Js Host unit) (st : Host) : list (list Piece) :=
  drop (length (console (heap st))) (console (heap (run request st))).

(** The sequence of diagnostics a request hands to the sink. *)
Definition added_diagnostics (request : Js Host unit) (st : Host) : list (list JsVal) :=
  drop (length (diagnostics (heap st))) (diagnostics (heap (run request st))).

Definition is_line (s : string) (line : list Piece) : bool :=
  match line with
  | Lit s' :: _ => String.eqb s s'
  | _ => false
  end.

Definition times_printed (s : string) (request : Js Host unit) (st : Host) : nat :=
  length (List.filter (is_line s) (added_lines request st)).


(** What C5 asks of the context while a request for [filename] runs. *)
Definition context_ready (filename : JsVal) (h : Heap) : Prop :=
  context h !! "filename" = Some filename
  ∧ callable (default VUndefined (context h !! "addDiagnostics")) = true.

(** A module whose factory leaves the context as it found it. *)
Definition quiet_module (m : Module) : Prop :=
  ∀ f, default_export m = Some f → ∀ h, context (run f h) = context h.

(** [[lo, hi]] lies within [[lo', hi']]. *)
Definition sub_range (lo hi lo' hi' : Z) : Prop := lo' ≤ lo ∧ hi ≤ hi'.

(** The diagnostic of the server text that reports: no [null] hint. *)
Definition server_diagnostic (n : JsVal) : list JsVal :=
  [n; message; VNum 100; VNum 200].

(** The line [hostInit] prints when it is done. *)
Definition loaded_line (n : nat) : list Piece :=
  [Lit "Loaded plugins: "; Hole (VNum (Z.of_nat n))].

(** A loader that knows [plugin1.js] only, for any meaning of calls. *)
Definition plugin1_import (call : positive → Callback) (path : string) : Js Heap Module :=
  if String.eqb path "plugin1.js" then mret (Plugin1.module call)
  else mthrow (TypeError ("Module not found: " +:+ path)).

(** The two errors the host's own property reads can end a request with. *)
Definition no_name_error : Error :=
  TypeError "Cannot read properties of undefined or null: name".
Definition no_span_error : Error :=
  TypeError "Cannot read properties of undefined or null: span".

(** * Lemmas *)

(** ** Relations kept by every step of a computation *)

Section Related.
Context {S : Type} (R : relation S) `{!PreOrder R}.

Lemma bind_related {A B} (m : Js S A) (f : A → Js S B) s :
  R s (run m s) →
  (∀ a s', m s = (Normal a, s') → R s' (run (f a) s')) →
  R s (run (m ≫= f) s).
Proof.
  intros Hm Hf. unfold run, mbind, js_bind in *.
  destruct (m s) as [[a|e] s'] eqn:E; simpl in *; [|done].
  by etrans; [apply Hm | apply Hf].
Qed.

Lemma for_of_related {A} (body : A → Js S unit) xs :
  (∀ x s, R s (run (body x) s)) → ∀ s, R s (run (for_of xs body) s).
Proof.
  intros Hbody. induction xs as [|x xs IH]; intros s; simpl.
  - reflexivity.
  - apply bind_related; [apply Hbody | intros; apply IH].
Qed.

Lemma get_prop_related v p s : R s (run (get_prop v p) s).
Proof. by destruct v. Qed.

Lemma plugin_name_related p s : R s (run (plugin_name p) s).
Proof. by destruct p. Qed.
End Related.

#[global] Instance same_plugins_po : PreOrder same_plugins.
Proof. split; unfold same_plugins; [done | intros ???; congruence]. Qed.
#[global] Instance same_context_po : PreOrder same_context.
Proof. split; unfold same_context; [done | intros ???; congruence]. Qed.
#[global] Instance grown_po : PreOrder grown.
Proof.
  split.
  - intros x. exists []. by rewrite app_nil_r.
  - intros x y z [k1 E1] [k2 E2]. exists (k1 ++ k2).
    rewrite E2, E1. by rewrite <-(assoc_L (++)).
Qed.

(** ** Initialisation *)

Lemma on_heap_same_plugins {A} (m : Js Heap A) st : same_plugins st (run (on_heap m) st).
Proof. unfold same_plugins, run, on_heap. by destruct (m (heap st)). Qed.

Lemma call_default_same_plugins m st : same_plugins st (run (call_default m) st).
Proof.
  unfold call_default. destruct (default_export m); [apply on_heap_same_plugins | done].
Qed.

Lemma load_same_plugins import path st : same_plugins st (run (load import path) st).
Proof.
  unfold load. apply (bind_related same_plugins); [apply on_heap_same_plugins |].
  intros; apply call_default_same_plugins.
Qed.

Lemma pushed_grown p st : grown st (run (push p) st).
Proof. unfold grown, run, push, modify; simpl. by eexists. Qed.

Lemma same_plugins_grown st st' : same_plugins st st' → grown st st'.
Proof. unfold same_plugins, grown. by intros ->. Qed.

Lemma init_loop_grows (import : string → Js Heap Module) paths st :
  grown st (run (for_of paths (λ pluginPath,
    pluginMod ← on_heap (import pluginPath);
    pluginInstance ← call_default pluginMod;
    push pluginInstance)) st).
Proof.
  apply (for_of_related grown). clear. intros path s.
  apply (bind_related grown).
  - apply same_plugins_grown, on_heap_same_plugins.
  - intros m s' _. apply (bind_related grown).
    + apply same_plugins_grown, call_default_same_plugins.
    + intros p s'' _. apply pushed_grown.
Qed.

Lemma init_grows import paths st : grown st (run (init import paths) st).
Proof.
  unfold init. apply (bind_related grown); [apply init_loop_grows |].
  intros _ s _. apply (bind_related grown); [done |].
  intros n s' _. apply same_plugins_grown, on_heap_same_plugins.
Qed.

Lemma init_loop_step (import : string → Js Heap Module) path rest st :
  for_of (path :: rest) (λ pluginPath,
    pluginMod ← on_heap (import pluginPath);
    pluginInstance ← call_default pluginMod;
    push pluginInstance) st
  = match load import path st with
    | (Normal p, s) =>
        for_of rest (λ pluginPath,
          pluginMod ← on_heap (import pluginPath);
          pluginInstance ← call_default pluginMod;
          push pluginInstance) (mkHost (loadedPlugins s ++ [p]) (heap s))
    | (Throw e, s) => (Throw e, s)
    end.
Proof.
  simpl. unfold load, mbind, js_bind, push, modify.
  destruct (on_heap (import path) st) as [[m|e] s]; [|done].
  by destruct (call_default m s) as [[p|e] s'].
Qed.

Lemma init_step import path rest st :
  init import (path :: rest) st
  = match load import path st with
    | (Normal p, s) => init import rest (mkHost (loadedPlugins s ++ [p]) (heap s))
    | (Throw e, s) => (Throw e, s)
    end.
Proof.
  unfold init. unfold mbind at 1, js_bind at 1. rewrite init_loop_step.
  by destruct (load import path st) as [[p|e] s].
Qed.

Lemma init_nil import st :
  init import [] st
  = (Normal tt,
     mkHost (loadedPlugins st)
       (with_console (λ out, out ++ [[Lit "Loaded plugins: ";
                                      Hole (VNum (Z.of_nat (length (loadedPlugins st))))]])
          (heap st))).
Proof. done. Qed.

Lemma init_outcome import paths st :
  ∃ new,
    loadedPlugins (run (init import paths) st) = loadedPlugins st ++ new
    ∧ match completion (init import paths) st with
      | Normal _ => length new = length paths
      | Throw e =>
          ∃ path s, paths !! length new = Some path
                    ∧ loadedPlugins s = loadedPlugins st ++ new
                    ∧ load import path s = (Throw e, run (init import paths) st)
      end.
Proof.
  revert st. induction paths as [|path paths IH]; intros st.
  - exists []. unfold run, completion. rewrite init_nil; simpl. by rewrite app_nil_r.
  - unfold run, completion in *. rewrite init_step.
    pose proof (load_same_plugins import path st) as Hsame. unfold same_plugins, run in Hsame.
    destruct (load import path st) as [[p|e] s] eqn:Hload; simpl in Hsame.
    + set (s2 := mkHost (loadedPlugins s ++ [p]) (heap s)).
      destruct (IH s2) as (new & Hnew & Hc).
      assert (loadedPlugins s2 ++ new = loadedPlugins st ++ p :: new) as Hl.
      { unfold s2; simpl. by rewrite Hsame, <-(assoc_L (++)). }
      rewrite Hl in Hnew, Hc.
      exists (p :: new). split; [done |].
      destruct (init import paths s2).1 as [[]|e].
      * simpl. by rewrite Hc.
      * destruct Hc as (path' & s' & Hpath & Hs' & Hthrow). by exists path', s'.
    + exists []. simpl. rewrite app_nil_r. split; [done |]. by exists path, st.
Qed.

Lemma on_heap_context {A} (m : Js Heap A) st :
  context (heap (run (on_heap m) st)) = context (run m (heap st)).
Proof. unfold run, on_heap. by destruct (m (heap st)). Qed.

Lemma init_same_context (import : string → Js Heap Module) paths st :
  (∀ path h, context (run (import path) h) = context h) →
  (∀ path h m h', import path h = (Normal m, h') → quiet_module m) →
  same_context st (run (init import paths) st).
Proof.
  intros Himport Hquiet. unfold init.
  apply (bind_related same_context).
  - apply (for_of_related same_context). clear st. intros path st.
    apply (bind_related same_context).
    + unfold same_context. by rewrite on_heap_context.
    + intros m s Hm. apply (bind_related same_context); [|done].
      unfold call_default. destruct (default_export m) as [f|] eqn:Hf; [|done].
      unfold same_context. rewrite on_heap_context.
      unfold on_heap in Hm. destruct (import path (heap st)) as [c h'] eqn:Hi.
      injection Hm as -> _. by eapply Hquiet.
  - intros _ s _. apply (bind_related same_context); [done |].
    intros n s' _. unfold same_context, print. by rewrite on_heap_context.
Qed.

Lemma sample_import_quiet path h m h' :
  sample_import path h = (Normal m, h') → quiet_module m.
Proof.
  unfold sample_import. destruct (String.eqb path "plugin1.js"); [|done].
  intros [= <- _] f [= <-] h0. reflexivity.
Defined.

Lemma sample_import_context path h : context (run (sample_import path) h) = context h.
Proof. unfold sample_import. destruct (String.eqb path "plugin1.js"); reflexivity. Defined.


Lemma load_unfold import path st :
  load import path st
  = match import path (heap st) with
    | (Normal m, h1) =>
        match default_export m with
        | Some factory => let (c, h2) := factory h1 in (c, mkHost (loadedPlugins st) h2)
        | None => (Throw (TypeError "pluginMod.default is not a function"),
                   mkHost (loadedPlugins st) h1)
        end
    | (Throw e, h1) => (Throw e, mkHost (loadedPlugins st) h1)
    end.
Proof.
  unfold load, call_default, on_heap, mbind, js_bind.
  destruct (import path (heap st)) as [[m|e] h1]; simpl; [|done].
  by destruct (default_export m).
Qed.

Lemma init_appends import paths st :
  loadedPlugins (run (init import paths) st)
    = loadedPlugins st ++ loaded_by import paths (heap st)
  ∧ match completion (init import paths) st with
    | Normal _ => length (loaded_by import paths (heap st)) = length paths
    | Throw _ => (length (loaded_by import paths (heap st)) < length paths)%nat
    end.
Proof.
  revert st. induction paths as [|path paths IH]; intros st.
  - unfold run, completion. rewrite init_nil; simpl. by rewrite app_nil_r.
  - unfold run, completion in *. rewrite init_step, load_unfold. cbn [loaded_by].
    destruct (import path (heap st)) as [[m|e] h1];
      [destruct (default_export m) as [factory|];
         [destruct (factory h1) as [[p|e] h2] |] |];
      cbn [snd fst loadedPlugins heap length];
      try (rewrite app_nil_r; split; [done | lia]).
    destruct (IH (mkHost (loadedPlugins st ++ [p]) h2)) as [Hlist Hc].
    cbn [loadedPlugins heap] in Hlist, Hc.
    rewrite <-(assoc_L (++)) in Hlist. split; [done |].
    destruct (init import paths _).1; cbn [length]; lia.
Qed.

Lemma loaded_by_forall (P : PluginInstance → Prop) import paths h :
  (∀ path s p s', load import path s = (Normal p, s') → P p) →
  Forall P (loaded_by import paths h).
Proof.
  intros Hload. revert h. induction paths as [|path paths IH]; intros h; simpl; [done |].
  pose proof (Hload path (mkHost [] h)) as Hp. rewrite load_unfold in Hp; simpl in Hp.
  destruct (import path h) as [[m|e] h1]; [|done].
  destruct (default_export m) as [factory|]; [|done].
  destruct (factory h1) as [[p|e] h2]; [|done].
  constructor; [by eapply Hp | apply IH].
Qed.

(** ** Requests only append *)

Lemma extend_nil st : extend [] [] st = st.
Proof. destruct st as [ps [c k o d]]. unfold extend; simpl. by rewrite !app_nil_r. Qed.

Lemma extend_extend o1 d1 o2 d2 st :
  extend o2 d2 (extend o1 d1 st) = extend (o1 ++ o2) (d1 ++ d2) st.
Proof. unfold extend; simpl. by rewrite !(assoc_L (++)). Qed.

Lemma effect_ret {A} (a : A) : effect_of (mret a) (Normal a) [] [].
Proof. intros st. by rewrite extend_nil. Qed.

Lemma effect_throw {A} (e : Error) : effect_of (A:=A) (mthrow e) (Throw e) [] [].
Proof. intros st. by rewrite extend_nil. Qed.

Lemma effect_bind {A B} (m : Js Host A) (f : A → Js Host B) a o1 d1 c o2 d2 :
  effect_of m (Normal a) o1 d1 → effect_of (f a) c o2 d2 →
  effect_of (m ≫= f) c (o1 ++ o2) (d1 ++ d2).
Proof.
  intros Hm Hf st. unfold mbind, js_bind. by rewrite Hm, Hf, extend_extend.
Qed.

Lemma effect_bind_throw {A B} (m : Js Host A) (f : A → Js Host B) e o d :
  effect_of m (Throw e) o d → effect_of (m ≫= f) (Throw e) o d.
Proof. intros Hm st. unfold mbind, js_bind. by rewrite Hm. Qed.

Lemma effect_print line : effect_of (print line) (Normal tt) [line] [].
Proof.
  intros st. unfold print, on_heap, modify, with_console, extend; simpl.
  by rewrite app_nil_r.
Qed.

Lemma effect_addDiagnostic args : effect_of (addDiagnostic args) (Normal tt) [] [args].
Proof.
  intros st. unfold addDiagnostic, on_heap, modify, with_diagnostics, extend; simpl.
  by rewrite app_nil_r.
Qed.

Lemma effect_step {A B} (m : Js Host A) (f : A → Js Host B) a o1 d1 c o2 d2 o d :
  effect_of m (Normal a) o1 d1 → o = o1 ++ o2 → d = d1 ++ d2 →
  effect_of (f a) c o2 d2 →
  effect_of (m ≫= f) c o d.
Proof. intros Hm -> -> Hf. by eapply effect_bind. Qed.

(** One statement run at a given store. *)
Lemma run_step {A B} (m : Js Host A) (f : A → Js Host B) a o d st :
  effect_of m (Normal a) o d → (m ≫= f) st = f a (extend o d st).
Proof. intros Hm. unfold mbind, js_bind. by rewrite Hm. Qed.

Lemma run_step_throw {A B} (m : Js Host A) (f : A → Js Host B) e o d st :
  effect_of m (Throw e) o d → (m ≫= f) st = (Throw e, extend o d st).
Proof. intros Hm. unfold mbind, js_bind. by rewrite Hm. Qed.

Lemma effect_get_prop v p :
  nullish v = false → effect_of (get_prop v p) (Normal (prop_of v p)) [] [].
Proof. destruct v; intros [=]; apply effect_ret. Qed.

Lemma effect_get_prop_nullish v p :
  nullish v = true →
  effect_of (get_prop (S:=Host) v p)
    (Throw (TypeError ("Cannot read properties of undefined or null: " +:+ p))) [] [].
Proof. destruct v; intros [=]; apply effect_throw. Qed.

Lemma is_string_primitive v : is_string v = true → primitive v = true.
Proof. by destruct v. Qed.

Lemma map_plugins_names g st :
  (∀ d, name (g d) = name d) →
  name_of <$> loadedPlugins (map_plugins g st) = name_of <$> loadedPlugins st.
Proof.
  intros Hg. unfold map_plugins; simpl. rewrite <-list_fmap_compose.
  apply list_fmap_ext. intros _ [|d] _; simpl; [done | by rewrite Hg].
Qed.

(** ** Requests *)

Section Requests.
Context {realm : Realm}.

(** Converting a primitive value runs no code. *)
Lemma effect_interpolate v :
  primitive v = true → effect_of (on_heap (interpolate v)) (Normal (Hole v)) [] [].
Proof.
  intros Hv st. rewrite extend_nil.
  destruct st as [ps h]. by destruct v.
Qed.

Lemma effect_stringify v indent :
  code_free v = true →
  effect_of (on_heap (stringify v indent)) (Normal (Json v indent)) [] [].
Proof.
  intros Hv st. rewrite extend_nil.
  destruct st as [ps h]. unfold on_heap, stringify. by rewrite Hv.
Qed.

Lemma effect_each_missing ast filename :
  effect_of (PluginHost.each_plugin ast filename Nullish) (Throw no_name_error) [] [].
Proof. unfold PluginHost.each_plugin; simpl. apply effect_bind_throw, effect_throw. Qed.

Lemma effect_each_instance ast filename d :
  primitive filename = true →
  string_named d →
  nullish ast = false →
  effect_of (PluginHost.each_plugin ast filename (Instance d)) (Normal tt)
    [running_line filename (name d)]
    (if truthy (prop_of ast "span") then [fixed_diagnostic (name d)] else []).
Proof.
  intros Hfile Hname Hast. unfold PluginHost.each_plugin; simpl.
  eapply effect_step; [apply effect_ret | reflexivity | reflexivity |].
  eapply effect_step;
    [by apply effect_interpolate, is_string_primitive | reflexivity | reflexivity |].
  eapply effect_step; [by apply effect_interpolate | reflexivity | reflexivity |].
  eapply effect_step; [apply effect_print | reflexivity | reflexivity |].
  eapply effect_step; [by apply effect_get_prop | reflexivity | reflexivity |].
  destruct (truthy (prop_of ast "span")).
  - eapply effect_step; [apply effect_ret | reflexivity | reflexivity |].
    apply effect_addDiagnostic.
  - apply effect_ret.
Qed.

Lemma effect_each_instance_no_ast ast filename d :
  primitive filename = true →
  string_named d →
  nullish ast = true →
  effect_of (PluginHost.each_plugin ast filename (Instance d)) (Throw no_span_error)
    [running_line filename (name d)] [].
Proof.
  intros Hfile Hname Hast. unfold PluginHost.each_plugin; simpl.
  eapply effect_step; [apply effect_ret | reflexivity | reflexivity |].
  eapply effect_step;
    [by apply effect_interpolate, is_string_primitive | reflexivity | reflexivity |].
  eapply effect_step; [by apply effect_interpolate | reflexivity | reflexivity |].
  eapply effect_step; [apply effect_print | reflexivity | reflexivity |].
  apply effect_bind_throw. by apply (effect_get_prop_nullish ast "span").
Qed.

(** One turn of the loop for an instance with a string name, in all three
    cases: how it completes and what it hands to the sink do not depend on
    the file name. *)
Lemma each_plugin_cases ast filename p :
  primitive filename = true →
  plain p →
  ∃ c out ds,
    effect_of (PluginHost.each_plugin ast filename p) c out ds
    ∧ (length ds ≤ 1)%nat
    ∧ (∀ d, d ∈ ds → ∃ n, name_of p = Some n ∧ d = fixed_diagnostic n)
    ∧ (c = Normal tt ↔ p ≠ Nullish ∧ nullish ast = false)
    ∧ ∀ filename', primitive filename' = true →
        ∃ out', effect_of (PluginHost.each_plugin ast filename' p) c out' ds.
Proof.
  intros Hfile Hp. destruct p as [|d].
  - exists (Throw no_name_error), [], []. split; [apply effect_each_missing |].
    split; [simpl; lia |]. split; [by intros d' Hd'%elem_of_nil |].
    split; [split; [done | by intros [? _]] |].
    intros f' _. exists []. apply effect_each_missing.
  - destruct (nullish ast) eqn:Hast.
    + exists (Throw no_span_error), [running_line filename (name d)], [].
      split; [by apply effect_each_instance_no_ast |].
      split; [simpl; lia |]. split; [by intros d' Hd'%elem_of_nil |].
      split; [split; [done | by intros [_ ?]] |].
      intros f' Hf'. eexists. by apply effect_each_instance_no_ast.
    + exists (Normal tt), [running_line filename (name d)],
        (if truthy (prop_of ast "span") then [fixed_diagnostic (name d)] else []).
      split; [by apply effect_each_instance |].
      split; [destruct (truthy _); simpl; lia |].
      split.
      { intros d' Hd'. destruct (truthy _); [|by apply elem_of_nil in Hd'].
        apply list_elem_of_singleton in Hd' as ->. by exists (name d). }
      split; [done |].
      intros f' Hf'. eexists. by apply effect_each_instance.
Qed.

Lemma loop_cases ast filename ps :
  primitive filename = true →
  Forall plain ps →
  ∃ c out ds,
    effect_of (for_of ps (PluginHost.each_plugin ast filename)) c out ds
    ∧ (length ds ≤ length ps)%nat
    ∧ (∀ d, d ∈ ds → ∃ p n, p ∈ ps ∧ name_of p = Some n ∧ d = fixed_diagnostic n)
    ∧ (c = Normal tt ↔ ps = [] ∨ (nullish ast = false ∧ Forall (λ p, p ≠ Nullish) ps))
    ∧ ∀ filename', primitive filename' = true → ∃ out',
        effect_of (for_of ps (PluginHost.each_plugin ast filename')) c out' ds.
Proof.
  intros Hfile Hps. induction Hps as [|p ps Hp Hps IH]; simpl.
  - exists (Normal tt), [], []. split; [apply effect_ret |].
    split; [done |]. split; [by intros d Hd%elem_of_nil |].
    split; [split; [by left | done] |].
    intros f' _. exists []. apply effect_ret.
  - destruct (each_plugin_cases ast filename p Hfile Hp)
      as (c1 & o1 & d1 & H1 & Hl1 & Hs1 & Hc1 & Hf1).
    destruct c1 as [[]|e].
    + destruct IH as (c2 & o2 & d2 & H2 & Hl2 & Hs2 & Hc2 & Hf2).
      destruct (proj1 Hc1 eq_refl) as [Hobj Hast].
      exists c2, (o1 ++ o2), (d1 ++ d2).
      split; [by eapply effect_bind |].
      split; [rewrite length_app; lia |].
      split.
      { intros d [Hd|Hd]%elem_of_app.
        - destruct (Hs1 d Hd) as (n & Hn & ->). exists p, n. by rewrite elem_of_cons; auto.
        - destruct (Hs2 d Hd) as (q & n & Hq & Hn & ->). exists q, n.
          by rewrite elem_of_cons; auto. }
      split.
      { rewrite Hc2. split.
        - intros [->|[_ Hall]]; right; (split; [done |]); by constructor.
        - intros [[=]|[_ Hall]]. right. split; [done |]. by inversion Hall. }
      intros f' Hf'. destruct (Hf1 f' Hf') as (o1' & H1'), (Hf2 f' Hf') as (o2' & H2').
      exists (o1' ++ o2'). by eapply effect_bind.
    + exists (Throw e), o1, d1.
      split; [by apply effect_bind_throw |].
      split; [lia |].
      split.
      { intros d Hd. destruct (Hs1 d Hd) as (n & Hn & ->). exists p, n.
        by rewrite elem_of_cons; auto. }
      split.
      { split; [done |]. intros [[=]|[Hast Hall]].
        assert (Throw e = Normal tt) as [=].
        apply Hc1. split; [by inversion Hall | done]. }
      intros f' Hf'. destruct (Hf1 f' Hf') as (o1' & H1').
      exists o1'. by apply effect_bind_throw.
Qed.

(** A request is the first line followed by the loop over the plugins the
    store holds. *)
Lemma hostRequest_unfold ast st :
  PluginHost.hostRequest ast st =
  (file ← on_heap (interpolate (VStr "..."));
   print [Lit "Got AST for "; file] ;;
   for_of (loadedPlugins st) (PluginHost.each_plugin ast (VStr "..."))) st.
Proof. done. Qed.

Lemma hostRequest_from_loop ast st c out ds :
  effect_of (for_of (loadedPlugins st) (PluginHost.each_plugin ast (VStr "..."))) c out ds →
  PluginHost.hostRequest ast st
  = (c, extend ([Lit "Got AST for "; Hole (VStr "...")] :: out) ds st).
Proof.
  intros Hloop. rewrite hostRequest_unfold.
  assert (effect_of
            (file ← on_heap (interpolate (VStr "..."));
             print [Lit "Got AST for "; file] ;;
             for_of (loadedPlugins st) (PluginHost.each_plugin ast (VStr "...")))
            c ([Lit "Got AST for "; Hole (VStr "...")] :: out) ds) as H; [|apply H].
  eapply effect_step; [by apply effect_interpolate | reflexivity | reflexivity |].
  eapply effect_step; [apply effect_print | reflexivity | reflexivity | done].
Qed.

Lemma hostRequest_cases ast st :
  Forall plain (loadedPlugins st) →
  ∃ c out ds,
    PluginHost.hostRequest ast st = (c, extend out ds st)
    ∧ (length ds ≤ length (loadedPlugins st))%nat
    ∧ (∀ d, d ∈ ds →
         ∃ p n, p ∈ loadedPlugins st ∧ name_of p = Some n ∧ d = fixed_diagnostic n)
    ∧ (c = Normal tt ↔
         loadedPlugins st = []
         ∨ (nullish ast = false ∧ Forall (λ p, p ≠ Nullish) (loadedPlugins st))).
Proof.
  intros Hplain.
  destruct (loop_cases ast (VStr "...") (loadedPlugins st) eq_refl Hplain)
    as (c & out & ds & Hloop & Hlen & Hshape & Hc & _).
  exists c, ([Lit "Got AST for "; Hole (VStr "...")] :: out), ds.
  split; [by apply hostRequest_from_loop | done].
Qed.

Lemma hostRequest_same_context ast st :
  Forall plain (loadedPlugins st) →
  same_context st (run (PluginHost.hostRequest ast) st).
Proof.
  intros Hplain. destruct (hostRequest_cases ast st Hplain) as (c & out & ds & Hreq & _).
  unfold same_context, run. by rewrite Hreq.
Qed.

Lemma string_named_plain descs :
  Forall string_named descs → Forall plain (Instance <$> descs).
Proof. intros H. by apply Forall_fmap. Qed.

Lemma effect_loop_instances ast filename descs :
  primitive filename = true →
  Forall string_named descs →
  nullish ast = false →
  effect_of (for_of (Instance <$> descs) (PluginHost.each_plugin ast filename))
    (Normal tt)
    (running_line filename ∘ name <$> descs)
    (if truthy (prop_of ast "span") then fixed_diagnostic ∘ name <$> descs else []).
Proof.
  intros Hfile Hnames Hast. induction Hnames as [|d descs Hd Hnames IH]; simpl.
  - destruct (truthy _); apply effect_ret.
  - eapply effect_step; [by apply effect_each_instance | reflexivity | | apply IH].
    by destruct (truthy _).
Qed.

Lemma hostRequest_instances ast descs h :
  Forall string_named descs →
  nullish ast = false →
  PluginHost.hostRequest ast (mkHost (Instance <$> descs) h) =
  (Normal tt,
   extend ([Lit "Got AST for "; Hole (VStr "...")]
             :: (running_line (VStr "...") ∘ name <$> descs))
          (if truthy (prop_of ast "span") then fixed_diagnostic ∘ name <$> descs else [])
          (mkHost (Instance <$> descs) h)).
Proof.
  intros Hnames Hast. apply hostRequest_from_loop; simpl.
  by apply effect_loop_instances.
Qed.

(** ** A request reads nothing of a plugin but its name *)

Lemma each_plugin_names ast filename p1 p2 :
  name_of p1 = name_of p2 →
  PluginHost.each_plugin ast filename p1 = PluginHost.each_plugin ast filename p2.
Proof.
  destruct p1 as [|d1], p2 as [|d2]; simpl; intros Hname; try done.
  injection Hname as Hname.
  unfold PluginHost.each_plugin; simpl. by rewrite Hname.
Qed.

Lemma loop_names ast filename ps1 ps2 :
  name_of <$> ps1 = name_of <$> ps2 →
  for_of ps1 (PluginHost.each_plugin ast filename) =
  for_of ps2 (PluginHost.each_plugin ast filename).
Proof.
  revert ps2. induction ps1 as [|p1 ps1 IH]; intros [|p2 ps2]; simpl; intros [=]; [done |].
  by rewrite (each_plugin_names _ _ p1 p2), (IH ps2).
Qed.

Lemma heap_blind_still {A} (c : Js Host A) r :
  (∀ st, c st = (r, st)) → heap_blind c.
Proof. intros Hc st1 st2 Hh. unfold completion, run. by rewrite !Hc. Qed.

Lemma heap_blind_on_heap {A} (m : Js Heap A) : heap_blind (on_heap m).
Proof.
  intros st1 st2 Hh. unfold completion, run, on_heap. rewrite Hh.
  by destruct (m (heap st2)).
Qed.

Lemma heap_blind_bind {A B} (c : Js Host A) (f : A → Js Host B) :
  heap_blind c → (∀ a, heap_blind (f a)) → heap_blind (c ≫= f).
Proof.
  intros Hc Hf st1 st2 Hh. destruct (Hc st1 st2 Hh) as [Hr Hs].
  unfold completion, run, mbind, js_bind in *.
  destruct (c st1) as [r1 s1], (c st2) as [r2 s2]; simpl in *. subst r2.
  destruct r1 as [a|e]; [by apply Hf | done].
Qed.

Lemma heap_blind_for_of {A} (body : A → Js Host unit) xs :
  (∀ x, heap_blind (body x)) → heap_blind (for_of xs body).
Proof.
  intros Hbody. induction xs as [|x xs IH]; simpl.
  - by apply (heap_blind_still _ (Normal tt)).
  - apply heap_blind_bind; [apply Hbody | done].
Qed.

Lemma heap_blind_get_prop v p : heap_blind (get_prop (S:=Host) v p).
Proof. destruct v; simpl; by eapply heap_blind_still. Qed.

Lemma heap_blind_plugin_name p : heap_blind (plugin_name (S:=Host) p).
Proof. destruct p; simpl; by eapply heap_blind_still. Qed.

Lemma heap_blind_each_plugin ast filename plugin :
  heap_blind (PluginHost.each_plugin ast filename plugin).
Proof.
  unfold PluginHost.each_plugin.
  apply heap_blind_bind; [apply heap_blind_plugin_name | intros n].
  apply heap_blind_bind; [apply heap_blind_on_heap | intros shown].
  apply heap_blind_bind; [apply heap_blind_on_heap | intros file].
  apply heap_blind_bind; [apply heap_blind_on_heap | intros _].
  apply heap_blind_bind; [apply heap_blind_get_prop | intros span].
  destruct (truthy span); [|by apply (heap_blind_still _ (Normal tt))].
  apply heap_blind_bind; [apply heap_blind_plugin_name | intros n'].
  apply heap_blind_on_heap.
Qed.

(** Whatever the names are, also when converting one runs plugin code: two
    stores with the same heap and the same names give the same completion
    and the same heap. *)
Lemma hostRequest_names ast st1 st2 :
  name_of <$> loadedPlugins st1 = name_of <$> loadedPlugins st2 →
  heap st1 = heap st2 →
  completion (PluginHost.hostRequest ast) st1 = completion (PluginHost.hostRequest ast) st2
  ∧ heap (run (PluginHost.hostRequest ast) st1) = heap (run (PluginHost.hostRequest ast) st2).
Proof.
  intros Hnames Hheap. unfold completion, run.
  rewrite !hostRequest_unfold, (loop_names _ _ _ _ Hnames).
  assert (heap_blind
            (file ← on_heap (interpolate (VStr "..."));
             print [Lit "Got AST for "; file] ;;
             for_of (loadedPlugins st2) (PluginHost.each_plugin ast (VStr "..."))))
    as Hblind; [|by apply Hblind].
  apply heap_blind_bind; [apply heap_blind_on_heap | intros file].
  apply heap_blind_bind; [apply heap_blind_on_heap | intros _].
  apply heap_blind_for_of, heap_blind_each_plugin.
Qed.

(** Whatever the names are: a request leaves the list of loaded plugins as
    it was. *)
Lemma each_plugin_same_plugins ast filename plugin st :
  same_plugins st (run (PluginHost.each_plugin ast filename plugin) st).
Proof.
  unfold PluginHost.each_plugin.
  apply (bind_related same_plugins); [apply plugin_name_related, _ | intros n s _].
  apply (bind_related same_plugins); [apply on_heap_same_plugins | intros shown s1 _].
  apply (bind_related same_plugins); [apply on_heap_same_plugins | intros file s2 _].
  apply (bind_related same_plugins); [apply on_heap_same_plugins | intros _ s3 _].
  apply (bind_related same_plugins); [apply get_prop_related, _ | intros span s4 _].
  destruct (truthy span); [|done].
  apply (bind_related same_plugins); [apply plugin_name_related, _ | intros n' s5 _].
  apply on_heap_same_plugins.
Qed.

Lemma hostRequest_same_plugins ast st :
  same_plugins st (run (PluginHost.hostRequest ast) st).
Proof.
  unfold PluginHost.hostRequest.
  apply (bind_related same_plugins); [apply on_heap_same_plugins | intros file s _].
  apply (bind_related same_plugins); [apply on_heap_same_plugins | intros _ s1 _].
  apply (bind_related same_plugins); [done | intros ps s2 _].
  apply (for_of_related same_plugins). intros p s3. apply each_plugin_same_plugins.
Qed.

Lemma run_gets {A B} (f : Host → A) (g : A → Js Host B) st :
  (gets f ≫= g) st = g (f st) st.
Proof. done. Qed.


(** ** When converting a name throws *)



(** ** The earlier hosts *)

Lemma effect_each_instance_span ast filename d :
  primitive filename = true →
  string_named d →
  nullish ast = false →
  effect_of (PluginHostSpan.each_plugin ast filename (Instance d)) (Normal tt)
    [running_line filename (name d)]
    (if truthy (prop_of ast "span")
     then [span_diagnostic (prop_of ast "span") (name d)] else []).
Proof.
  intros Hfile Hname Hast. unfold PluginHostSpan.each_plugin; simpl.
  eapply effect_step; [apply effect_ret | reflexivity | reflexivity |].
  eapply effect_step;
    [by apply effect_interpolate, is_string_primitive | reflexivity | reflexivity |].
  eapply effect_step; [by apply effect_interpolate | reflexivity | reflexivity |].
  eapply effect_step; [apply effect_print | reflexivity | reflexivity |].
  eapply effect_step; [by apply effect_get_prop | reflexivity | reflexivity |].
  destruct (truthy (prop_of ast "span")) eqn:Hspan; [|apply effect_ret].
  assert (nullish (prop_of ast "span") = false) as Hobj.
  { by destruct (prop_of ast "span"). }
  eapply effect_step; [apply effect_ret | reflexivity | reflexivity |].
  eapply effect_step; [by apply effect_get_prop | reflexivity | reflexivity |].
  eapply effect_step; [by apply effect_get_prop | reflexivity | reflexivity |].
  eapply effect_step; [by apply effect_get_prop | reflexivity | reflexivity |].
  eapply effect_step; [by apply effect_get_prop | reflexivity | reflexivity |].
  apply effect_addDiagnostic.
Qed.

Lemma effect_server_each filename d :
  primitive filename = true →
  string_named d →
  effect_of (n ← plugin_name (Instance d);
             shown ← on_heap (interpolate n);
             file ← on_heap (interpolate filename);
             print [Lit "Running plugin: "; shown; Lit " for "; file] ;;
             n ← plugin_name (Instance d);
             addDiagnostic [n; message; VNum 100; VNum 200])
    (Normal tt) [running_line filename (name d)] [server_diagnostic (name d)].
Proof.
  intros Hfile Hname. simpl.
  eapply effect_step; [apply effect_ret | reflexivity | reflexivity |].
  eapply effect_step;
    [by apply effect_interpolate, is_string_primitive | reflexivity | reflexivity |].
  eapply effect_step; [by apply effect_interpolate | reflexivity | reflexivity |].
  eapply effect_step; [apply effect_print | reflexivity | reflexivity |].
  eapply effect_step; [apply effect_ret | reflexivity | reflexivity |].
  apply effect_addDiagnostic.
Qed.

Lemma effect_server_loop filename descs :
  primitive filename = true →
  Forall string_named descs →
  effect_of (for_of (Instance <$> descs) (λ plugin,
      n ← plugin_name plugin;
      shown ← on_heap (interpolate n);
      file ← on_heap (interpolate filename);
      print [Lit "Running plugin: "; shown; Lit " for "; file] ;;
      n ← plugin_name plugin;
      addDiagnostic [n; message; VNum 100; VNum 200]))
    (Normal tt)
    (running_line filename ∘ name <$> descs)
    (server_diagnostic ∘ name <$> descs).
Proof.
  intros Hfile Hnames. induction Hnames as [|d descs Hd Hnames IH]; simpl.
  - apply effect_ret.
  - eapply effect_step;
      [by apply (effect_server_each filename d) | reflexivity | reflexivity | apply IH].
Qed.

Lemma quiet_loop_effect filename ps :
  primitive filename = true →
  Forall plain ps →
  ∃ c out,
    effect_of (for_of ps (λ plugin,
        n ← plugin_name plugin;
        shown ← on_heap (interpolate n);
        file ← on_heap (interpolate filename);
        print [Lit "Running plugin: "; shown; Lit " for "; file]))
      c out [].
Proof.
  intros Hfile Hps. induction Hps as [|p ps Hp Hps IH]; simpl.
  - exists (Normal tt), []. apply effect_ret.
  - destruct IH as (c & out & IH). destruct p as [|d]; simpl.
    + exists (Throw no_name_error), []. apply effect_bind_throw, effect_bind_throw, effect_throw.
    + assert (effect_of
                (n ← mret (name d);
                 shown ← on_heap (interpolate n);
                 file ← on_heap (interpolate filename);
                 print [Lit "Running plugin: "; shown; Lit " for "; file])
                (Normal tt) [running_line filename (name d)] []) as Hd.
      { eapply effect_step; [apply effect_ret | reflexivity | reflexivity |].
        eapply effect_step;
          [by apply effect_interpolate, is_string_primitive | reflexivity | reflexivity |].
        eapply effect_step; [by apply effect_interpolate | reflexivity | reflexivity |].
        apply effect_print. }
      exists c, (running_line filename (name d) :: out).
      eapply effect_step; [apply Hd | reflexivity | reflexivity | apply IH].
Qed.

(** ** Sessions *)

Lemma session_same_context (import : string → Js Heap Module) calls st :
  (∀ path h, context (run (import path) h) = context h) →
  (∀ path h m h', import path h = (Normal m, h') → quiet_module m) →
  (∀ path s p s', load import path s = (Normal p, s') → plain p) →
  Forall plain (loadedPlugins st) →
  context (heap (session import calls st)) = context (heap st).
Proof.
  intros Himport Hquiet Hplain. revert st.
  induction calls as [|c calls IH]; intros st Hst; simpl; [done |].
  destruct c as [paths|ast]; simpl; unfold PluginHost.hostInit.
  - rewrite IH.
    + by apply init_same_context.
    + destruct (init_appends import paths st) as [-> _].
      apply Forall_app. split; [done | by apply loaded_by_forall].
  - rewrite IH.
    + by apply hostRequest_same_context.
    + by rewrite hostRequest_same_plugins.
Qed.

Lemma plugin1_import_context call path h :
  context (run (plugin1_import call path) h) = context h.
Proof. unfold plugin1_import. by destruct (String.eqb path "plugin1.js"). Qed.

Lemma plugin1_import_quiet call path h m h' :
  plugin1_import call path h = (Normal m, h') → quiet_module m.
Proof.
  unfold plugin1_import. destruct (String.eqb path "plugin1.js"); [|done].
  by intros [= <- _] f [= <-] h0.
Qed.

Lemma plugin1_import_plain call path s p s' :
  load (plugin1_import call) path s = (Normal p, s') → plain p.
Proof.
  unfold load, plugin1_import. destruct (String.eqb path "plugin1.js"); [|done].
  by intros [= <- _].
Qed.

(** * The claims *)

(** C1, amended.  A request walks nothing and calls no visitor: with any
    other visitor tables in the plugins it completes the same way and leaves
    the same heap.  It goes through the loaded plugins in registration order:
    with object instances whose names are strings, a tree that is not
    [undefined] or [null] and a truthy root [span], the diagnostic carrying
    A's name precedes the one carrying B's whenever A was registered before
    B. *)
Theorem hostRequest_registration_order ast h before a between b rest f :
  nullish ast = false →
  truthy (prop_of ast "span") = true →
  Forall string_named (before ++ a :: between ++ b :: rest) →
  let st := mkHost (Instance <$> (before ++ a :: between ++ b :: rest)) h in
  diagnostics (heap (run (PluginHost.hostRequest ast) st))
    = diagnostics h
      ++ (fixed_diagnostic ∘ name <$> before)
      ++ fixed_diagnostic (name a) :: (fixed_diagnostic ∘ name <$> between)
      ++ fixed_diagnostic (name b) :: (fixed_diagnostic ∘ name <$> rest)
  ∧ completion (PluginHost.hostRequest ast) (map_plugins (with_visitor f) st)
    = completion (PluginHost.hostRequest ast) st
  ∧ heap (run (PluginHost.hostRequest ast) (map_plugins (with_visitor f) st))
    = heap (run (PluginHost.hostRequest ast) st).
Proof.
  intros Hast Hspan Hnames st. split.
  - unfold st, run. rewrite (hostRequest_instances ast _ h Hnames Hast); simpl.
    rewrite Hspan. by rewrite fmap_app, fmap_cons, fmap_app, fmap_cons.
  - by apply hostRequest_names; [apply map_plugins_names |].
Qed.

(** C2, amended.  A request never calls [onEnd]: whatever [onEnd] the
    plugins have, or none, it completes the same way and leaves the same
    heap. *)
Theorem hostRequest_never_calls_onEnd ast st f :
  completion (PluginHost.hostRequest ast) (map_plugins (with_onEnd f) st)
    = completion (PluginHost.hostRequest ast) st
  ∧ heap (run (PluginHost.hostRequest ast) (map_plugins (with_onEnd f) st))
    = heap (run (PluginHost.hostRequest ast) st).
Proof. by apply hostRequest_names; [apply map_plugins_names |]. Qed.


(** C4, amended.  [hostInit] validates nothing and keeps no error list.  It
    loads the paths in order and pushes whatever each factory returns; the
    first import or factory that throws rejects [hostInit] with that error,
    at that point: the instances of the paths before it stay registered, and
    that path and all later ones are not loaded. *)
Theorem hostInit_stops_at_first_failure import paths st :
  (∃ new,
     loadedPlugins (run (PluginHost.hostInit import paths) st) = loadedPlugins st ++ new
     ∧ match completion (PluginHost.hostInit import paths) st with
       | Normal _ => length new = length paths
       | Throw e =>
           ∃ path s, paths !! length new = Some path
                     ∧ loadedPlugins s = loadedPlugins st ++ new
                     ∧ load import path s
                       = (Throw e, run (PluginHost.hostInit import paths) st)
       end)
  ∧ ∀ path,
      PluginHost.hostInit import (path :: paths) st
      = match load import path st with
        | (Normal p, s) =>
            PluginHost.hostInit import paths (mkHost (loadedPlugins s ++ [p]) (heap s))
        | (Throw e, s) => (Throw e, s)
        end.
Proof. split; [apply init_outcome | intros path; apply init_step]. Qed.

(** C5, amended.  The host creates the context empty, shares it with every
    factory and never writes to it itself: initialisation changes it only
    through what the imported modules and their factories do, and a request
    leaves it unchanged when the loaded instances have string names (the
    conversion of any other name to text is plugin code, which holds the
    context).  With modules that do not write to it, as [plugin1.js], it is
    after [hostInit] what it was before. *)
Theorem host_never_writes_context import paths ast st :
  (∀ path h, context (run (import path) h) = context h) →
  (∀ path h m h', import path h = (Normal m, h') → quiet_module m) →
  Forall plain (loadedPlugins st) →
  context (heap PluginHost.start) = ∅
  ∧ context (heap (run (PluginHost.hostInit import paths) st)) = context (heap st)
  ∧ context (heap (run (PluginHost.hostRequest ast) st)) = context (heap st).
Proof.
  intros Himport Hquiet Hplain. split; [done |]. split.
  - by apply init_same_context.
  - by apply hostRequest_same_context.
Qed.

(** C6 at the sample tree with [plugin1.js] loaded: the root's span is
    [[0, 50]], the one diagnostic of the request carries the offsets 100 and
    200, and [[100, 200]] does not lie within [[0, 50]]. *)
Theorem fixed_span_outside_root_span :
  prop_of sample_ast "span" = span_of 0 50
  ∧ diagnostics (heap (run (PluginHost.hostRequest sample_ast) loaded1))
    = [[VStr "example_plugin1"; message; VNull; VNum 100; VNum 200]]
  ∧ ¬ sub_range 100 200 0 50.
Proof. repeat split; try reflexivity. unfold sub_range. lia. Qed.


(** C8.  With no plugin registered a request completes normally and hands
    nothing to the sink, for every tree, also a missing one; on a fresh
    module the sink stays empty.  The earliest server text never reports at
    all. *)
Theorem no_plugins_no_diagnostics ast h :
  PluginHost.hostRequest ast (mkHost [] h)
    = (Normal tt, mkHost [] (with_console (λ out, out ++ [[Lit "Got AST for "; Hole (VStr "...")]]) h))
  ∧ diagnostics (heap (run (PluginHost.hostRequest ast) (mkHost [] h))) = diagnostics h
  ∧ diagnostics (heap (run (PluginHost.hostRequest ast) PluginHost.start)) = []
  ∧ (∀ fields, completion (PluginServerQuiet.serverRequest (VObj fields)) (mkHost [] h) = Normal tt
               ∧ diagnostics (heap (run (PluginServerQuiet.serverRequest (VObj fields)) (mkHost [] h)))
                 = diagnostics h).
Proof. done. Qed.

(** C9, amended.  With object instances whose names are strings loaded and
    a tree that is not [undefined] or [null], a request hands the sink
    exactly one diagnostic per loaded plugin, in order, each made of the
    plugin's name, the message "Example Plugin diagnostics", [null] and the
    offsets 100 and 200, when the root's [span] is truthy, and none when it
    is not.  Two stores whose plugins carry the same names give the same
    completion and the same heap, whatever their [visitor] and [onEnd]
    are. *)
Theorem hostRequest_one_fixed_diagnostic_per_plugin ast descs h :
  nullish ast = false →
  Forall string_named descs →
  completion (PluginHost.hostRequest ast) (mkHost (Instance <$> descs) h) = Normal tt
  ∧ diagnostics (heap (run (PluginHost.hostRequest ast) (mkHost (Instance <$> descs) h)))
    = diagnostics h ++
      (if truthy (prop_of ast "span") then fixed_diagnostic ∘ name <$> descs else [])
  ∧ ∀ others,
      name <$> others = name <$> descs →
      completion (PluginHost.hostRequest ast) (mkHost (Instance <$> others) h)
        = completion (PluginHost.hostRequest ast) (mkHost (Instance <$> descs) h)
      ∧ heap (run (PluginHost.hostRequest ast) (mkHost (Instance <$> others) h))
        = heap (run (PluginHost.hostRequest ast) (mkHost (Instance <$> descs) h)).
Proof.
  intros Hast Hnames. unfold completion, run.
  rewrite (hostRequest_instances ast descs h Hnames Hast); simpl.
  split; [done |]. split; [done |]. intros others Hsame.
  assert (Forall string_named others) as Hothers.
  { assert (Forall (λ n, is_string n = true) (name <$> others)) as H.
    { rewrite Hsame. by apply Forall_fmap. }
    by apply Forall_fmap in H. }
  rewrite (hostRequest_instances ast others h Hothers Hast); simpl.
  assert (∀ (g : JsVal → list JsVal), g ∘ name <$> others = g ∘ name <$> descs) as Hd.
  { intros g. by rewrite !(list_fmap_compose name g), Hsame. }
  assert (∀ (g : JsVal → list Piece), g ∘ name <$> others = g ∘ name <$> descs) as Ho.
  { intros g. by rewrite !(list_fmap_compose name g), Hsame. }
  by rewrite Hd, Ho.
Qed.

(** C10.  The list of loaded plugins only grows, and every [hostInit] call
    appends to it: after the call the list is the earlier list followed by
    the instances the factories of its paths returned, in the order of the
    paths, one per path when the call returns and those before the failing
    path when it rejects.  Whatever calls are made into the module, the list
    held before them is a prefix of the list held after them, so earlier
    plugins stay, in their order; a request leaves the list exactly as it
    was. *)
Theorem loadedPlugins_only_grows import calls paths st :
  loadedPlugins (run (PluginHost.hostInit import paths) st)
    = loadedPlugins st ++ loaded_by import paths (heap st)
  ∧ match completion (PluginHost.hostInit import paths) st with
    | Normal _ => length (loaded_by import paths (heap st)) = length paths
    | Throw _ => (length (loaded_by import paths (heap st)) < length paths)%nat
    end
  ∧ loadedPlugins st `prefix_of` loadedPlugins (session import calls st)
  ∧ ∀ ast, loadedPlugins (run (PluginHost.hostRequest ast) st) = loadedPlugins st.
Proof.
  split; [apply init_appends |]. split; [apply init_appends |].
  split; [|intros ast; apply hostRequest_same_plugins].
  revert st. induction calls as [|c calls IH]; intros st; simpl; [done |].
  trans (loadedPlugins (run (call import c) st)); [|apply IH].
  destruct c as [paths'|ast]; simpl.
  - apply init_grows.
  - apply same_plugins_grown, hostRequest_same_plugins.
Qed.

(** * Further properties of the hosts *)

(** ** How a request fails *)

(** X1.  With loaded instances whose names are strings (or that are
    [undefined]/[null]), a request completes normally exactly when no plugin
    is loaded, or the tree is not [undefined]/[null] and no loaded instance
    is. *)
Theorem hostRequest_completes_iff ast st :
  Forall plain (loadedPlugins st) →
  completion (PluginHost.hostRequest ast) st = Normal tt
  ↔ loadedPlugins st = []
    ∨ (nullish ast = false ∧ Forall (λ p, p ≠ Nullish) (loadedPlugins st)).
Proof.
  intros Hplain.
  destruct (hostRequest_cases ast st Hplain) as (c & out & ds & Hreq & _ & _ & Hc).
  unfold completion. by rewrite Hreq.
Qed.


Lemma effect_loop_until_missing ast filename descs rest :
  primitive filename = true →
  Forall string_named descs →
  nullish ast = false →
  effect_of (for_of ((Instance <$> descs) ++ Nullish :: rest)
               (PluginHost.each_plugin ast filename))
    (Throw no_name_error)
    (running_line filename ∘ name <$> descs)
    (if truthy (prop_of ast "span") then fixed_diagnostic ∘ name <$> descs else []).
Proof.
  intros Hfile Hnames Hast. induction Hnames as [|d descs Hd Hnames IH]; simpl.
  - replace (if truthy (prop_of ast "span") then [] else []) with (@nil (list JsVal))
      by (by destruct (truthy _)).
    apply effect_bind_throw, effect_each_missing.
  - eapply effect_step; [by apply effect_each_instance | reflexivity | | apply IH].
    by destruct (truthy _).
Qed.

(** X3.  Nothing is caught and nothing is undone: with string names before
    it, when an instance is [undefined]/[null] the request throws at it; the
    diagnostics of the plugins before it stay in the sink, the plugins after
    it are not handled. *)
Theorem hostRequest_keeps_diagnostics_before_failure ast descs rest h :
  nullish ast = false →
  Forall string_named descs →
  PluginHost.hostRequest ast (mkHost ((Instance <$> descs) ++ Nullish :: rest) h)
  = (Throw no_name_error,
     extend ([Lit "Got AST for "; Hole (VStr "...")]
               :: (running_line (VStr "...") ∘ name <$> descs))
            (if truthy (prop_of ast "span") then fixed_diagnostic ∘ name <$> descs else [])
            (mkHost ((Instance <$> descs) ++ Nullish :: rest) h)).
Proof.
  intros Hast Hnames. apply hostRequest_from_loop; simpl.
  by apply effect_loop_until_missing.
Qed.

(** X4.  When the first loaded instance is an object with a string name
    and there is no tree ([undefined]/[null]), a request throws at that
    plugin, when it reads [ast.span]: the plugin's line is printed, nothing
    reaches the sink. *)
Theorem hostRequest_without_ast ast d rest h :
  nullish ast = true →
  string_named d →
  PluginHost.hostRequest ast (mkHost (Instance d :: rest) h)
  = (Throw no_span_error,
     extend [[Lit "Got AST for "; Hole (VStr "...")];
             running_line (VStr "...") (name d)] []
            (mkHost (Instance d :: rest) h)).
Proof.
  intros Hast Hname. apply hostRequest_from_loop; simpl.
  apply effect_bind_throw. by apply effect_each_instance_no_ast.
Qed.

(** X5.  With loaded instances whose names are strings (or that are
    [undefined]/[null]), the sink is never cleared and a request does not
    look at it: after two requests it holds what it held before, then what
    the first adds, then what the second would have added on its own. *)
Theorem requests_accumulate ast1 ast2 st :
  Forall plain (loadedPlugins st) →
  ∃ ds1 ds2,
    diagnostics (heap (run (PluginHost.hostRequest ast1) st)) = diagnostics (heap st) ++ ds1
    ∧ diagnostics (heap (run (PluginHost.hostRequest ast2) st)) = diagnostics (heap st) ++ ds2
    ∧ diagnostics (heap (run (PluginHost.hostRequest ast2)
                           (run (PluginHost.hostRequest ast1) st)))
      = diagnostics (heap st) ++ ds1 ++ ds2.
Proof.
  intros Hplain.
  destruct (loop_cases ast1 (VStr "...") (loadedPlugins st) eq_refl Hplain)
    as (c1 & o1 & ds1 & Hloop1 & _).
  destruct (loop_cases ast2 (VStr "...") (loadedPlugins st) eq_refl Hplain)
    as (c2 & o2 & ds2 & Hloop2 & _).
  pose proof (hostRequest_from_loop ast1 st c1 o1 ds1 Hloop1) as H1.
  pose proof (hostRequest_from_loop ast2 st c2 o2 ds2 Hloop2) as H2.
  pose proof (hostRequest_from_loop ast2
                (extend ([Lit "Got AST for "; Hole (VStr "...")] :: o1) ds1 st)
                c2 o2 ds2 Hloop2) as H3.
  exists ds1, ds2. unfold run. rewrite H1; simpl. rewrite H2, H3; simpl.
  by rewrite (assoc_L (++)).
Qed.

(** ** The other texts *)

(** X6.  The text that prints the tree and the current one differ only in
    what they print: given a context object whose [filename] is primitive
    and whose [ast] holds no function, and loaded instances whose names are
    strings (or that are [undefined]/[null]), the first completes as the
    second does on [ctx.ast], and hands the same diagnostics to the sink. *)
Theorem PluginHostPrint_agrees_with_PluginHost ctx st :
  nullish ctx = false →
  primitive (prop_of ctx "filename") = true →
  code_free (prop_of ctx "ast") = true →
  Forall plain (loadedPlugins st) →
  completion (PluginHostPrint.hostRequest ctx) st
    = completion (PluginHost.hostRequest (prop_of ctx "ast")) st
  ∧ diagnostics (heap (run (PluginHostPrint.hostRequest ctx) st))
    = diagnostics (heap (run (PluginHost.hostRequest (prop_of ctx "ast")) st)).
Proof.
  intros Hctx Hfile Htree Hplain.
  destruct (loop_cases (prop_of ctx "ast") (VStr "...") (loadedPlugins st) eq_refl Hplain)
    as (c & out & ds & Hloop & _ & _ & _ & Hother).
  destruct (Hother (prop_of ctx "filename") Hfile) as (out' & Hloop').
  pose proof (hostRequest_from_loop _ st c out ds Hloop) as Hnow.
  assert (PluginHostPrint.hostRequest ctx st
          = (c, extend ([Lit "Got AST for "; Hole (prop_of ctx "filename"); Lit ": ";
                         Json (prop_of ctx "ast") (Some 4)] :: out') ds st)) as Hthen.
  { unfold PluginHostPrint.hostRequest.
    rewrite (run_step _ _ _ _ _ _ (effect_get_prop ctx "filename" Hctx)); cbv beta.
    rewrite (run_step _ _ _ _ _ _ (effect_get_prop ctx "ast" Hctx)); cbv beta.
    rewrite (run_step _ _ _ _ _ _ (effect_interpolate _ Hfile)); cbv beta.
    rewrite (run_step _ _ _ _ _ _ (effect_stringify _ (Some 4) Htree)); cbv beta.
    rewrite (run_step _ _ _ _ _ _ (effect_print _)); cbv beta.
    rewrite run_gets, !extend_extend; simpl.
    change (λ plugin, _)
      with (PluginHost.each_plugin (prop_of ctx "ast") (prop_of ctx "filename")).
    rewrite Hloop'. by rewrite extend_extend. }
  unfold completion, run. by rewrite Hnow, Hthen.
Qed.

(** X7.  The text that passes [ast.span.start] and [ast.span.end]: given a
    context object whose [filename] is primitive and whose [ast] is not
    [undefined]/[null], and object instances whose names are strings, it
    completes normally, prints one line per plugin and nothing else, and
    hands the sink one diagnostic per plugin carrying the root's own [start]
    and [end] when the root's [span] is truthy, none otherwise. *)
Theorem PluginHostSpan_reports_span_or_nothing ctx descs h :
  nullish ctx = false →
  primitive (prop_of ctx "filename") = true →
  nullish (prop_of ctx "ast") = false →
  Forall string_named descs →
  PluginHostSpan.hostRequest ctx (mkHost (Instance <$> descs) h)
  = (Normal tt,
     extend (running_line (prop_of ctx "filename") ∘ name <$> descs)
            (if truthy (prop_of (prop_of ctx "ast") "span")
             then span_diagnostic (prop_of (prop_of ctx "ast") "span") ∘ name <$> descs
             else [])
            (mkHost (Instance <$> descs) h)).
Proof.
  intros Hctx Hfile Hast Hnames.
  assert (effect_of (for_of (Instance <$> descs)
              (PluginHostSpan.each_plugin (prop_of ctx "ast") (prop_of ctx "filename")))
            (Normal tt)
            (running_line (prop_of ctx "filename") ∘ name <$> descs)
            (if truthy (prop_of (prop_of ctx "ast") "span")
             then span_diagnostic (prop_of (prop_of ctx "ast") "span") ∘ name <$> descs
             else [])) as Hloop.
  { induction Hnames as [|d descs Hd Hnames IH]; simpl.
    - destruct (truthy _); apply effect_ret.
    - eapply effect_step;
        [by apply effect_each_instance_span | reflexivity | | apply IH].
      by destruct (truthy _). }
  unfold PluginHostSpan.hostRequest.
  rewrite (run_step _ _ _ _ _ _ (effect_get_prop ctx "filename" Hctx)); cbv beta.
  rewrite (run_step _ _ _ _ _ _ (effect_get_prop ctx "ast" Hctx)); cbv beta.
  rewrite run_gets, !extend_extend; simpl.
  rewrite Hloop. by rewrite extend_extend.
Qed.

(** X8.  The server text that reports does not look at the tree's span:
    given a context object whose [filename] is primitive and whose [ast]
    holds no function (it may be [null] or missing), and object instances
    whose names are strings, it completes normally and hands the sink one
    four-argument diagnostic per plugin, in order. *)
Theorem PluginServer_reports_for_every_plugin ctx descs h :
  nullish ctx = false →
  primitive (prop_of ctx "filename") = true →
  code_free (prop_of ctx "ast") = true →
  Forall string_named descs →
  PluginServer.serverRequest ctx (mkHost (Instance <$> descs) h)
  = (Normal tt,
     extend ([Lit "Got AST for "; Hole (prop_of ctx "filename"); Lit ": ";
              Json (prop_of ctx "ast") None]
               :: (running_line (prop_of ctx "filename") ∘ name <$> descs))
            (server_diagnostic ∘ name <$> descs)
            (mkHost (Instance <$> descs) h)).
Proof.
  intros Hctx Hfile Htree Hnames. unfold PluginServer.serverRequest.
  rewrite (run_step _ _ _ _ _ _ (effect_get_prop ctx "filename" Hctx)); cbv beta.
  rewrite (run_step _ _ _ _ _ _ (effect_get_prop ctx "ast" Hctx)); cbv beta.
  rewrite (run_step _ _ _ _ _ _ (effect_interpolate _ Hfile)); cbv beta.
  rewrite (run_step _ _ _ _ _ _ (effect_stringify _ None Htree)); cbv beta.
  rewrite (run_step _ _ _ _ _ _ (effect_print _)); cbv beta.
  rewrite run_gets, !extend_extend; simpl.
  rewrite (effect_server_loop (prop_of ctx "filename") descs Hfile Hnames).
  by rewrite extend_extend.
Qed.

(** X9.  The earliest server text only prints: when the argument is
    [undefined]/[null] or its [filename] is primitive, and the loaded
    instances have string names (or are [undefined]/[null]), then, returning
    or throwing, it leaves the loaded plugins, the context and the sink as
    they were and only adds lines to the output. *)
Theorem PluginServerQuiet_only_prints request st :
  nullish request = true ∨ primitive (prop_of request "filename") = true →
  Forall plain (loadedPlugins st) →
  loadedPlugins (run (PluginServerQuiet.serverRequest request) st) = loadedPlugins st
  ∧ context (heap (run (PluginServerQuiet.serverRequest request) st)) = context (heap st)
  ∧ diagnostics (heap (run (PluginServerQuiet.serverRequest request) st))
    = diagnostics (heap st)
  ∧ console (heap st) `prefix_of`
      console (heap (run (PluginServerQuiet.serverRequest request) st)).
Proof.
  intros Hreq Hplain.
  assert (∃ c out, PluginServerQuiet.serverRequest request st = (c, extend out [] st))
    as (c & out & Hrun).
  { unfold PluginServerQuiet.serverRequest.
    destruct (nullish request) eqn:Hnull.
    - rewrite (run_step_throw _ _ _ _ _ _ (effect_get_prop_nullish request "filename" Hnull)).
      by eexists _, _.
    - destruct Hreq as [[=]|Hfile].
      rewrite (run_step _ _ _ _ _ _ (effect_get_prop request "filename" Hnull)); cbv beta.
      rewrite run_gets; simpl.
      destruct (quiet_loop_effect (prop_of request "filename") (loadedPlugins st)
                  Hfile Hplain) as (c & out & Hloop).
      rewrite Hloop, extend_extend. by eexists _, _. }
  unfold run. rewrite Hrun; simpl. rewrite app_nil_r.
  repeat split. by eexists.
Qed.

(** X10.  The four texts that take a context or an argument object throw
    when it is [undefined]/[null], before anything is printed or reported,
    also when no plugin is loaded: the store is left as it was. *)
Theorem requests_without_context_change_nothing ctx st :
  nullish ctx = true →
  PluginServer.serverRequest ctx st
    = (Throw (TypeError "Cannot read properties of undefined or null: filename"), st)
  ∧ PluginHostPrint.hostRequest ctx st
    = (Throw (TypeError "Cannot read properties of undefined or null: filename"), st)
  ∧ PluginHostSpan.hostRequest ctx st
    = (Throw (TypeError "Cannot read properties of undefined or null: filename"), st)
  ∧ PluginServerQuiet.serverRequest ctx st
    = (Throw (TypeError "Cannot read properties of undefined or null: filename"), st).
Proof. by destruct ctx. Qed.

(** ** Initialisation, further *)

(** X11.  When [hostInit] returns, the last line it printed gives the length of
    the whole list, the plugins of earlier calls included. *)
Theorem hostInit_reports_total_count import paths st :
  completion (PluginHost.hostInit import paths) st = Normal tt →
  last (console (heap (run (PluginHost.hostInit import paths) st)))
  = Some (loaded_line (length (loadedPlugins (run (PluginHost.hostInit import paths) st)))).
Proof.
  unfold PluginHost.hostInit, init, completion, run, mbind, js_bind.
  destruct (for_of paths _ st) as [[[]|e] s]; simpl; [|done].
  intros _. by rewrite last_snoc.
Qed.

(** X12.  When every path loads without touching the store, [hostInit] registers
    one instance per path, in the order of the paths and without looking for
    duplicates, after the instances already there, and prints the new
    length. *)
Theorem hostInit_registers_in_order import (g : string → PluginInstance) paths st :
  (∀ path s, path ∈ paths → load import path s = (Normal (g path), s)) →
  PluginHost.hostInit import paths st
  = (Normal tt,
     mkHost (loadedPlugins st ++ (g <$> paths))
       (with_console
          (λ out, out ++ [loaded_line (length (loadedPlugins st ++ (g <$> paths)))])
          (heap st))).
Proof.
  unfold PluginHost.hostInit. revert st.
  induction paths as [|path paths IH]; intros st Hload.
  - rewrite init_nil; simpl. by rewrite app_nil_r.
  - rewrite init_step, (Hload path st) by apply list_elem_of_here.
    rewrite IH by (intros p s Hp; apply Hload; by apply list_elem_of_further).
    simpl. by rewrite <-!(assoc_L (++)).
Qed.

(** ** [plugin1.js] under this host *)

(** X13.  With [plugin1.js] as the only module, whatever calls were made into the
    host ([hostInit] and requests, in any number and order), the context is
    still empty and the plugin's [onEnd], were it called then, with any
    arguments, would throw: [context.addDiagnostics] is not a function. *)
Theorem plugin1_onEnd_cannot_succeed call calls args :
  context (heap (session (plugin1_import call) calls PluginHost.start)) = ∅
  ∧ Plugin1.onEnd call args (heap (session (plugin1_import call) calls PluginHost.start))
    = (Throw (TypeError "context.addDiagnostics is not a function"),
       heap (session (plugin1_import call) calls PluginHost.start)).
Proof.
  assert (context (heap (session (plugin1_import call) calls PluginHost.start)) = ∅) as Hctx.
  { rewrite session_same_context;
      [done | apply plugin1_import_context | apply plugin1_import_quiet
      | apply plugin1_import_plain | constructor]. }
  split; [done |].
  unfold Plugin1.onEnd, mbind, js_bind, gets; simpl. by rewrite Hctx.
Qed.

End Requests.

(** * The hosts at sample inputs *)

(** The sample plugins have string names: the requests below convert no
    object to text, and what they show holds in every realm. *)

(** ** The claims, as stated *)

(** C1, as stated, at [plugin1.js]: the plugin registers [Program], the root
    of the tree is a [Program], [visitor.Program(node)] prints the line
    ["Program", node] whenever it is called, yet the request completes
    without that line: the callback was not called. *)
Lemma Program_visitor_not_invoked :
  loadedPlugins loaded1 = [Instance plugin1_descriptor]
  ∧ visitor plugin1_descriptor = [("Program", Plugin1.Program)]
  ∧ prop_of sample_ast "type" = VStr "Program"
  ∧ (∀ h, console (run (Plugin1.Program [sample_ast]) h)
          = console h ++ [[Lit "Program"; Hole sample_ast]])
  ∧ completion (PluginHost.hostRequest sample_ast) loaded1 = Normal tt
  ∧ added_lines (PluginHost.hostRequest sample_ast) loaded1
    = [[Lit "Got AST for "; Hole (VStr "...")];
       running_line (VStr "...") (VStr "example_plugin1")]
  ∧ ¬ (times_printed "Program" (PluginHost.hostRequest sample_ast) loaded1 = 1%nat).
Proof. repeat split; try reflexivity. vm_compute. discriminate. Qed.

(** C2, as stated, at a plugin that has an [onEnd] and no visitor: [onEnd]
    prints the line "onEnd" each time it is called, and a request on a
    [Program] tree adds that line zero times, not once. *)
Lemma onEnd_not_invoked :
  loadedPlugins loaded_probe = [Instance end_probe]
  ∧ onEnd end_probe = Some end_probe_onEnd
  ∧ (∀ h, console (run (end_probe_onEnd []) h) = console h ++ [[Lit "onEnd"]])
  ∧ completion (PluginHost.hostRequest sample_ast) loaded_probe = Normal tt
  ∧ times_printed "onEnd" (PluginHost.hostRequest sample_ast) loaded_probe = 0%nat
  ∧ ¬ (times_printed "onEnd" (PluginHost.hostRequest sample_ast) loaded_probe = 1%nat).
Proof. repeat split; try reflexivity. vm_compute. discriminate. Qed.


(** C4, as stated, at the paths ["bad.js"; "plugin1.js"], where the factory
    of the first throws: [hostInit] rejects with that error, [plugin1.js] is
    not registered and nothing is recorded.  At ["noname.js"; "plugin1.js"],
    where the first descriptor has no name, both are registered and no error
    arises. *)
Lemma hostInit_aborts_on_bad_plugin :
  PluginHost.hostInit failing_import ["bad.js"; "plugin1.js"] PluginHost.start
    = (Throw (Exception (VStr "boom")), PluginHost.start)
  ∧ ¬ (Instance plugin1_descriptor
         ∈ loadedPlugins (run (PluginHost.hostInit failing_import ["bad.js"; "plugin1.js"])
                              PluginHost.start))
  ∧ completion (PluginHost.hostInit failing_import ["noname.js"; "plugin1.js"])
      PluginHost.start = Normal tt
  ∧ loadedPlugins (run (PluginHost.hostInit failing_import ["noname.js"; "plugin1.js"])
                       PluginHost.start)
    = [Instance nameless; Instance plugin1_descriptor].
Proof.
  repeat split; try reflexivity.
  change (Instance plugin1_descriptor ∉ []). apply not_elem_of_nil.
Qed.

(** C5, as stated, at [plugin1.js] and the sample tree: the context starts
    empty, and after initialisation and a request it has neither a
    [filename] nor an [addDiagnostics]; calling the plugin's [onEnd] on that
    heap would throw.  The earlier host that receives a file name with the
    request does not store it either. *)
Lemma context_never_prepared :
  context (heap PluginHost.start) = ∅
  ∧ context (heap (run (PluginHost.hostRequest sample_ast) loaded1)) !! "filename" = None
  ∧ callable (default VUndefined
       (context (heap (run (PluginHost.hostRequest sample_ast) loaded1)) !! "addDiagnostics"))
    = false
  ∧ ¬ context_ready (VStr "...") (heap (run (PluginHost.hostRequest sample_ast) loaded1))
  ∧ completion (Plugin1.onEnd no_call [])
      (heap (run (PluginHost.hostRequest sample_ast) loaded1))
    = Throw (TypeError "context.addDiagnostics is not a function")
  ∧ ¬ context_ready (VStr "a.ts")
        (heap (run (PluginHostSpan.hostRequest sample_ctx)
                 (run (PluginHostSpan.hostInit sample_import ["plugin1.js"])
                      PluginHostSpan.start))).
Proof.
  repeat split; try reflexivity.
  - intros [Hfile _]. vm_compute in Hfile. discriminate.
  - intros [Hfile _]. vm_compute in Hfile. discriminate.
Qed.


(** C9, as stated, at the paths ["plugin1.js"; "empty.js"], where the
    factory of the second returns nothing: [hostInit] returns with two
    entries in the list, the root of the sample tree has a truthy [span],
    and the request throws at the second entry with one diagnostic in the
    sink, not two. *)
Lemma undefined_instance_gets_no_diagnostic :
  completion (PluginHost.hostInit empty_import ["plugin1.js"; "empty.js"]) PluginHost.start
    = Normal tt
  ∧ loadedPlugins loaded_empty = [Instance plugin1_descriptor; Nullish]
  ∧ truthy (prop_of sample_ast "span") = true
  ∧ completion (PluginHost.hostRequest sample_ast) loaded_empty = Throw no_name_error
  ∧ added_diagnostics (PluginHost.hostRequest sample_ast) loaded_empty
    = [fixed_diagnostic (VStr "example_plugin1")]
  ∧ length (added_diagnostics (PluginHost.hostRequest sample_ast) loaded_empty)
    ≠ length (loadedPlugins loaded_empty).
Proof. repeat split; try reflexivity. vm_compute. discriminate. Qed.

(** ** The theorems at sample inputs *)

Lemma hostRequest_registration_order_witness :
  nullish sample_ast = false
  ∧ truthy (prop_of sample_ast "span") = true
  ∧ Forall string_named [plugin1_descriptor; second_descriptor]
  ∧ diagnostics (heap (run (PluginHost.hostRequest sample_ast)
                         (mkHost [Instance plugin1_descriptor; Instance second_descriptor]
                                 empty_heap)))
    = [fixed_diagnostic (VStr "example_plugin1"); fixed_diagnostic (VStr "example_plugin2")].
Proof.
  split; [reflexivity |]. split; [reflexivity |]. split; [repeat constructor |].
  apply (hostRequest_registration_order sample_ast empty_heap
           [] plugin1_descriptor [] second_descriptor [] (λ _, []));
    [reflexivity | reflexivity | repeat constructor].
Defined.


Lemma host_never_writes_context_witness :
  Forall plain (loadedPlugins PluginHost.start)
  ∧ context (heap (run (PluginHost.hostInit sample_import ["plugin1.js"]) PluginHost.start))
    = context (heap PluginHost.start).
Proof.
  split; [constructor |].
  apply (host_never_writes_context sample_import ["plugin1.js"] sample_ast PluginHost.start).
  - exact sample_import_context.
  - exact sample_import_quiet.
  - constructor.
Defined.


Lemma hostRequest_one_fixed_diagnostic_per_plugin_witness :
  nullish sample_ast = false
  ∧ Forall string_named [plugin1_descriptor; plugin1_descriptor]
  ∧ diagnostics (heap (run (PluginHost.hostRequest sample_ast)
                         (mkHost (Instance <$> [plugin1_descriptor; plugin1_descriptor])
                                 empty_heap)))
    = [fixed_diagnostic (VStr "example_plugin1"); fixed_diagnostic (VStr "example_plugin1")]
  ∧ diagnostics (heap (run (PluginHost.hostRequest spanless_ast)
                         (mkHost (Instance <$> [plugin1_descriptor; plugin1_descriptor])
                                 empty_heap)))
    = [].
Proof.
  split; [reflexivity |]. split; [repeat constructor |]. split.
  - apply (hostRequest_one_fixed_diagnostic_per_plugin sample_ast
             [plugin1_descriptor; plugin1_descriptor] empty_heap);
      [reflexivity | repeat constructor].
  - apply (hostRequest_one_fixed_diagnostic_per_plugin spanless_ast
             [plugin1_descriptor; plugin1_descriptor] empty_heap);
      [reflexivity | repeat constructor].
Defined.

Lemma hostRequest_completes_iff_witness :
  Forall plain (loadedPlugins loaded1)
  ∧ completion (PluginHost.hostRequest sample_ast) loaded1 = Normal tt.
Proof.
  split; [repeat constructor |].
  apply (hostRequest_completes_iff sample_ast loaded1); [repeat constructor |].
  right. split; [reflexivity |]. repeat constructor. discriminate.
Defined.


Lemma hostRequest_keeps_diagnostics_before_failure_witness :
  nullish sample_ast = false
  ∧ Forall string_named [plugin1_descriptor]
  ∧ PluginHost.hostRequest sample_ast
      (mkHost [Instance plugin1_descriptor; Nullish; Instance second_descriptor] empty_heap)
    = (Throw no_name_error,
       extend [[Lit "Got AST for "; Hole (VStr "...")];
               running_line (VStr "...") (VStr "example_plugin1")]
              [fixed_diagnostic (VStr "example_plugin1")]
              (mkHost [Instance plugin1_descriptor; Nullish; Instance second_descriptor]
                      empty_heap)).
Proof.
  split; [reflexivity |]. split; [repeat constructor |].
  apply (hostRequest_keeps_diagnostics_before_failure sample_ast [plugin1_descriptor]
           [Instance second_descriptor] empty_heap);
    [reflexivity | repeat constructor].
Defined.

Lemma hostRequest_without_ast_witness :
  nullish VNull = true
  ∧ string_named plugin1_descriptor
  ∧ PluginHost.hostRequest VNull (mkHost [Instance plugin1_descriptor] empty_heap)
  = (Throw no_span_error,
     extend [[Lit "Got AST for "; Hole (VStr "...")];
             running_line (VStr "...") (VStr "example_plugin1")] []
            (mkHost [Instance plugin1_descriptor] empty_heap)).
Proof.
  split; [reflexivity |]. split; [reflexivity |].
  apply (hostRequest_without_ast VNull plugin1_descriptor [] empty_heap); reflexivity.
Defined.

Lemma requests_accumulate_witness :
  Forall plain (loadedPlugins loaded1)
  ∧ ∃ ds1 ds2,
      diagnostics (heap (run (PluginHost.hostRequest sample_ast) loaded1))
        = diagnostics (heap loaded1) ++ ds1
      ∧ diagnostics (heap (run (PluginHost.hostRequest spanless_ast) loaded1))
        = diagnostics (heap loaded1) ++ ds2
      ∧ diagnostics (heap (run (PluginHost.hostRequest spanless_ast)
                             (run (PluginHost.hostRequest sample_ast) loaded1)))
        = diagnostics (heap loaded1) ++ ds1 ++ ds2.
Proof.
  split; [repeat constructor |].
  apply (requests_accumulate sample_ast spanless_ast loaded1). repeat constructor.
Defined.

Lemma PluginHostPrint_agrees_with_PluginHost_witness :
  nullish sample_ctx = false
  ∧ primitive (prop_of sample_ctx "filename") = true
  ∧ code_free (prop_of sample_ctx "ast") = true
  ∧ Forall plain (loadedPlugins loaded1)
  ∧ diagnostics (heap (run (PluginHostPrint.hostRequest sample_ctx) loaded1))
    = diagnostics (heap (run (PluginHost.hostRequest (prop_of sample_ctx "ast")) loaded1)).
Proof.
  split; [reflexivity |]. split; [reflexivity |]. split; [reflexivity |].
  split; [repeat constructor |].
  apply (PluginHostPrint_agrees_with_PluginHost sample_ctx loaded1);
    [reflexivity | reflexivity | reflexivity | repeat constructor].
Defined.

Lemma PluginHostSpan_reports_span_or_nothing_witness :
  Forall string_named [plugin1_descriptor]
  ∧ PluginHostSpan.hostRequest sample_ctx (mkHost (Instance <$> [plugin1_descriptor]) empty_heap)
  = (Normal tt,
     extend [running_line (VStr "a.ts") (VStr "example_plugin1")]
            [[VStr "example_plugin1"; message; VNull; VNum 0; VNum 50]]
            (mkHost (Instance <$> [plugin1_descriptor]) empty_heap)).
Proof.
  split; [repeat constructor |].
  apply (PluginHostSpan_reports_span_or_nothing sample_ctx [plugin1_descriptor] empty_heap);
    [reflexivity | reflexivity | reflexivity | repeat constructor].
Defined.

Lemma PluginServer_reports_for_every_plugin_witness :
  nullish (VObj {[ "filename" := VStr "a.ts" ]}) = false
  ∧ Forall string_named [plugin1_descriptor; second_descriptor]
  ∧ PluginServer.serverRequest (VObj {[ "filename" := VStr "a.ts" ]})
      (mkHost (Instance <$> [plugin1_descriptor; second_descriptor]) empty_heap)
    = (Normal tt,
       extend [[Lit "Got AST for "; Hole (VStr "a.ts"); Lit ": "; Json VUndefined None];
               running_line (VStr "a.ts") (VStr "example_plugin1");
               running_line (VStr "a.ts") (VStr "example_plugin2")]
              [server_diagnostic (VStr "example_plugin1");
               server_diagnostic (VStr "example_plugin2")]
              (mkHost (Instance <$> [plugin1_descriptor; second_descriptor]) empty_heap)).
Proof.
  split; [reflexivity |]. split; [repeat constructor |].
  refine (PluginServer_reports_for_every_plugin (VObj {[ "filename" := VStr "a.ts" ]})
            [plugin1_descriptor; second_descriptor] empty_heap eq_refl eq_refl eq_refl _).
  repeat constructor.
Defined.

Lemma PluginServerQuiet_only_prints_witness :
  primitive (prop_of (VObj {[ "filename" := VStr "a.ts" ]}) "filename") = true
  ∧ Forall plain [Instance plugin1_descriptor; Nullish]
  ∧ diagnostics (heap (run (PluginServerQuiet.serverRequest (VObj {[ "filename" := VStr "a.ts" ]}))
                         (mkHost [Instance plugin1_descriptor; Nullish] empty_heap)))
    = [].
Proof.
  split; [reflexivity |]. split; [repeat constructor |].
  apply (PluginServerQuiet_only_prints (VObj {[ "filename" := VStr "a.ts" ]})
           (mkHost [Instance plugin1_descriptor; Nullish] empty_heap));
    [right; reflexivity | repeat constructor].
Defined.

Lemma requests_without_context_change_nothing_witness :
  nullish VUndefined = true
  ∧ PluginHostSpan.hostRequest VUndefined PluginHostSpan.start
    = (Throw (TypeError "Cannot read properties of undefined or null: filename"),
       PluginHostSpan.start).
Proof.
  split; [reflexivity |].
  apply (requests_without_context_change_nothing VUndefined PluginHostSpan.start).
  reflexivity.
Defined.

Lemma hostInit_reports_total_count_witness :
  last (console (heap (run (PluginHost.hostInit sample_import ["plugin1.js"]) loaded1)))
  = Some (loaded_line 2).
Proof.
  apply (hostInit_reports_total_count sample_import ["plugin1.js"] loaded1). reflexivity.
Defined.

Lemma load_plugin1 path (s : Host) :
  path ∈ ["plugin1.js"; "plugin1.js"] →
  load sample_import path s = (Normal (Instance plugin1_descriptor), s).
Proof.
  intros Hpath. assert (path = "plugin1.js") as ->.
  { apply elem_of_cons in Hpath as [->|Hpath]; [done |].
    by apply list_elem_of_singleton in Hpath. }
  by destruct s.
Defined.

Lemma hostInit_registers_in_order_witness :
  PluginHost.hostInit sample_import ["plugin1.js"; "plugin1.js"] PluginHost.start
  = (Normal tt,
     mkHost [Instance plugin1_descriptor; Instance plugin1_descriptor]
       (with_console (λ out, out ++ [loaded_line 2]) (heap PluginHost.start))).
Proof.
  apply (hostInit_registers_in_order sample_import (λ _, Instance plugin1_descriptor)
           ["plugin1.js"; "plugin1.js"] PluginHost.start load_plugin1).
Defined.

(** ** Other facts at the samples *)

(** Callbacks that throw whenever they are called make no difference,
    since none is called: with such a plugin before [plugin1.js] the sink
    holds the two example diagnostics. *)
Lemma throwing_callbacks_not_called :
  loadedPlugins loaded_thrower = [Instance thrower; Instance plugin1_descriptor]
  ∧ visitor thrower = [("Program", boom)]
  ∧ completion (PluginHost.hostRequest sample_ast) loaded_thrower = Normal tt
  ∧ diagnostics (heap (run (PluginHost.hostRequest sample_ast) loaded_thrower))
    = [fixed_diagnostic (VStr "thrower"); fixed_diagnostic (VStr "example_plugin1")].
Proof. repeat split; reflexivity. Qed.

(** The earlier host reports the root's own span: its diagnostics carry
    [ast.span.start] and [ast.span.end]. *)
Lemma PluginHostSpan_reports_root_span :
  diagnostics (heap (run (PluginHostSpan.hostRequest sample_ctx)
                       (run (PluginHostSpan.hostInit sample_import ["plugin1.js"])
                            PluginHostSpan.start)))
  = [[VStr "example_plugin1"; message; VNull; VNum 0; VNum 50]]
  ∧ sub_range 0 50 0 50.
Proof. split; [reflexivity | unfold sub_range; lia]. Qed.

(** A name that cannot be converted to text ends the request with the
    conversion's [TypeError], before anything is reported for that plugin. *)
Lemma unconvertible_name_ends_request :
  PluginHost.hostRequest sample_ast (mkHost [Instance loud] empty_heap)
  = (Throw (TypeError "Cannot convert object to primitive value"),
     mkHost [Instance loud]
       (with_console (λ out, out ++ [[Lit "Got AST for "; Hole (VStr "...")]]) empty_heap)).
Proof. reflexivity. Qed.
